(** * NWS forecast-discussion bot: a shallow embedding of [main.py]

    The bot polls one web page, fingerprints the text of one region of it with
    MD5, and posts the text to a webhook when the fingerprint changes.  The
    embedding follows [class NWSDiscordBot] method by method.

    - Text is a list of characters; a character is a code point below 256
      (the product is plain text), so [encode('utf-8')] is total.
    - The object's attributes are a record that is threaded through a small
      state, log and exception monad: attribute writes survive a raised
      exception, as in Python, and every [requests.post] is logged.
    - What the outside world answers (clock readings, HTTP replies) is an
      argument of the method that asks for it.
    - The two [while] loops run over a finite list of such answers: a prefix
      of the run, which by itself never ends.
    - Console output and the sleeps between rounds are left out: they change
      no attribute and post nothing. *)

From Stdlib Require Import ZArith List Ascii String Bool Arith Lia.
Import ListNotations.
Open Scope Z_scope.

(** ** Text *)

Definition pystr := list ascii.

Definition lit (s : string) : pystr := list_ascii_of_string s.

Definition code_point (c : ascii) : Z := Z.of_nat (nat_of_ascii c).

Definition pystr_eqb (a b : pystr) : bool :=
  if list_eq_dec ascii_dec a b then true else false.

(** [str.isspace] on one code point below 256. *)
Definition is_space (c : ascii) : bool :=
  let n := code_point c in
  ((9 <=? n) && (n <=? 13)) || ((28 <=? n) && (n <=? 32))
  || (n =? 133) || (n =? 160).

Fixpoint lstrip (s : pystr) : pystr :=
  match s with
  | c :: s' => if is_space c then lstrip s' else s
  | [] => []
  end.

Definition rstrip (s : pystr) : pystr := rev (lstrip (rev s)).

(** [s.strip()] *)
Definition strip (s : pystr) : pystr := rstrip (lstrip s).

(** [s[i:j]] for [0 <= i <= j]; a slice past the end is cut short. *)
Definition slice {A : Type} (s : list A) (i j : nat) : list A :=
  firstn (j - i) (skipn i s).

(** [range(start, stop, step)] for a positive step.  Each round moves on by at
    least one, so [stop - start] rounds are enough. *)
Fixpoint range_from (fuel : nat) (i stop step : nat) : list nat :=
  match fuel with
  | O => []
  | S fuel' =>
      if (i <? stop)%nat then i :: range_from fuel' (i + step) stop step
      else []
  end.

Definition range (start stop step : nat) : list nat :=
  range_from (stop - start) start stop step.

(** [[content[i:i+1900] for i in range(0, len(content), 1900)]] *)
Definition chunks (content : pystr) : list pystr :=
  map (fun i => slice content i (i + 1900))
      (range 0 (List.length content) 1900).

(** ** MD5, as [hashlib.md5(...).hexdigest()] computes it *)

Module MD5.

Definition w32 (x : Z) : Z := x mod 2 ^ 32.

Definition rotl (x s : Z) : Z :=
  w32 (Z.lor (Z.shiftl x s) (Z.shiftr x (32 - s))).

Definition lnot32 (x : Z) : Z := Z.lxor x (2 ^ 32 - 1).

Definition shifts : list Z :=
  [7; 12; 17; 22; 7; 12; 17; 22; 7; 12; 17; 22; 7; 12; 17; 22;
   5; 9; 14; 20; 5; 9; 14; 20; 5; 9; 14; 20; 5; 9; 14; 20;
   4; 11; 16; 23; 4; 11; 16; 23; 4; 11; 16; 23; 4; 11; 16; 23;
   6; 10; 15; 21; 6; 10; 15; 21; 6; 10; 15; 21; 6; 10; 15; 21].

(** [floor (2^32 * abs (sin (i + 1)))] for [i] from 0 to 63. *)
Definition sines : list Z :=
  [3614090360; 3905402710; 606105819; 3250441966;
   4118548399; 1200080426; 2821735955; 4249261313;
   1770035416; 2336552879; 4294925233; 2304563134;
   1804603682; 4254626195; 2792965006; 1236535329;
   4129170786; 3225465664; 643717713; 3921069994;
   3593408605; 38016083; 3634488961; 3889429448;
   568446438; 3275163606; 4107603335; 1163531501;
   2850285829; 4243563512; 1735328473; 2368359562;
   4294588738; 2272392833; 1839030562; 4259657740;
   2763975236; 1272893353; 4139469664; 3200236656;
   681279174; 3936430074; 3572445317; 76029189;
   3654602809; 3873151461; 530742520; 3299628645;
   4096336452; 1126891415; 2878612391; 4237533241;
   1700485571; 2399980690; 4293915773; 2240044497;
   1873313359; 4264355552; 2734768916; 1309151649;
   4149444226; 3174756917; 718787259; 3951481745].

(** Little-endian bytes of [x], [n] of them. *)
Fixpoint le_bytes (n : nat) (x : Z) : list Z :=
  match n with
  | O => []
  | S n' => x mod 256 :: le_bytes n' (x / 256)
  end.

Fixpoint le_value (bs : list Z) : Z :=
  match bs with
  | [] => 0
  | b :: bs' => b + 256 * le_value bs'
  end.

(** The message, one [0x80], zeros up to 56 modulo 64, then the length in
    bits as 8 little-endian bytes. *)
Definition pad (msg : list Z) : list Z :=
  let len := Z.of_nat (List.length msg) in
  let zeros := Z.to_nat ((55 - len) mod 64) in
  msg ++ [128] ++ repeat 0 zeros ++ le_bytes 8 ((8 * len) mod 2 ^ 64).

Fixpoint words (n : nat) (bs : list Z) : list Z :=
  match n with
  | O => []
  | S n' => le_value (firstn 4 bs) :: words n' (skipn 4 bs)
  end.

Fixpoint blocks (n : nat) (bs : list Z) : list (list Z) :=
  match n with
  | O => []
  | S n' => words 16 (firstn 64 bs) :: blocks n' (skipn 64 bs)
  end.

Record regs := Regs { ra : Z; rb : Z; rc : Z; rd : Z }.

Definition step (m : list Z) (r : regs) (i : nat) : regs :=
  let '(Regs a b c d) := r in
  let iz := Z.of_nat i in
  let '(f, g) :=
    if iz <? 16 then (Z.lor (Z.land b c) (Z.land (lnot32 b) d), iz)
    else if iz <? 32 then
      (Z.lor (Z.land d b) (Z.land (lnot32 d) c), (5 * iz + 1) mod 16)
    else if iz <? 48 then (Z.lxor b (Z.lxor c d), (3 * iz + 5) mod 16)
    else (Z.lxor c (Z.lor b (lnot32 d)), (7 * iz) mod 16) in
  let f' := w32 (f + a + nth i sines 0 + nth (Z.to_nat g) m 0) in
  Regs d (w32 (b + rotl f' (nth i shifts 0))) b c.

Definition compress (r : regs) (m : list Z) : regs :=
  let r' := fold_left (step m) (seq 0 64) r in
  Regs (w32 (ra r + ra r')) (w32 (rb r + rb r'))
       (w32 (rc r + rc r')) (w32 (rd r + rd r')).

Definition init : regs := Regs 1732584193 4023233417 2562383102 271733878.

Definition digest (msg : list Z) : list Z :=
  let p := pad msg in
  let r := fold_left compress (blocks (List.length p / 64) p) init in
  le_bytes 4 (ra r) ++ le_bytes 4 (rb r)
  ++ le_bytes 4 (rc r) ++ le_bytes 4 (rd r).

Definition hex_digit (n : Z) : ascii :=
  ascii_of_nat (Z.to_nat (if n <? 10 then 48 + n else 87 + n)).

Definition hexdigest (msg : list Z) : pystr :=
  flat_map (fun b => [hex_digit (b / 16); hex_digit (b mod 16)])
           (digest msg).

End MD5.

(** [s.encode('utf-8')] on code points below 256. *)
Definition encode_utf8 (s : pystr) : list Z :=
  flat_map (fun c =>
              let n := code_point c in
              if n <? 128 then [n] else [192 + n / 64; 128 + n mod 64]) s.

(** ** Time: [datetime] and [timedelta] *)

(** A naive [datetime] is a count of microseconds; so is the [timedelta]
    that the difference of two of them gives. *)
Definition datetime := Z.
Definition timedelta := Z.

(** [td.seconds]: a [timedelta] is kept as days, seconds and microseconds with
    [0 <= seconds < 86400] and [0 <= microseconds < 1000000]; this is the
    seconds field. *)
Definition td_seconds (td : timedelta) : Z := (td / 1000000) mod 86400.

(** [timedelta(seconds=n)] *)
Definition seconds (n : Z) : timedelta := n * 1000000.

(** ** What a run can observe and change *)

(** The attributes of an [NWSDiscordBot] (the fetched [url] is a constant). *)
Record Bot := mkBot {
  webhook_url : pystr;
  last_hash : option pystr;
  error_count : Z;
  last_success : option datetime
}.

(** [NWSDiscordBot(webhook_url)] *)
Definition __init__ (webhook : pystr) : Bot :=
  {| webhook_url := webhook; last_hash := None;
     error_count := 0; last_success := None |}.

(** The JSON body of one webhook call. *)
Record Message := mkMessage { content : pystr; username : pystr }.

(** The exceptions the network calls raise; all derive from [Exception]. *)
Inductive exn :=
| RequestException          (* no connection, timeout, ... *)
| HTTPError (status : Z).   (* from [raise_for_status] *)

Record response (A : Type) := mkResponse { status_code : Z; payload : A }.
Arguments mkResponse {A} _ _.
Arguments status_code {A} _.
Arguments payload {A} _.

(** What the network does with one request. *)
Inductive reply (A : Type) :=
| Fails (e : exn)
| Answers (r : response A).
Arguments Fails {A} _.
Arguments Answers {A} _.

(** The page as [BeautifulSoup] reads it: the text of the first element of
    class [glossaryProduct], when there is one. *)
Definition page := option pystr.

(** ** The monad: attributes, the log of webhook calls, exceptions *)

Inductive result (A : Type) :=
| Return (a : A)
| Raise (e : exn).
Arguments Return {A} _.
Arguments Raise {A} _.

Definition M (A : Type) : Type := Bot -> result A * Bot * list Message.

Definition ret {A} (a : A) : M A := fun self => (Return a, self, []).

Definition raise {A} (e : exn) : M A := fun self => (Raise e, self, []).

Definition bind {A B} (m : M A) (k : A -> M B) : M B :=
  fun self =>
    match m self with
    | (Return a, self1, log1) =>
        let '(r, self2, log2) := k a self1 in (r, self2, log1 ++ log2)
    | (Raise e, self1, log1) => (Raise e, self1, log1)
    end.

(** [try: m except Exception as e: h e] *)
Definition try_except {A} (m : M A) (h : exn -> M A) : M A :=
  fun self =>
    match m self with
    | (Return a, self1, log1) => (Return a, self1, log1)
    | (Raise e, self1, log1) =>
        let '(r, self2, log2) := h e self1 in (r, self2, log1 ++ log2)
    end.

Definition get_self : M Bot := fun self => (Return self, self, []).

Definition modify (f : Bot -> Bot) : M unit :=
  fun self => (Return tt, f self, []).

Declare Scope py_scope.
Delimit Scope py_scope with py.
Notation "x <- m ;; k" := (bind m (fun x => k))
  (at level 61, m at next level, right associativity) : py_scope.
Notation "m ;; k" := (bind m (fun _ => k))
  (at level 61, right associativity) : py_scope.
Open Scope py_scope.

Definition result_of {A} (o : result A * Bot * list Message) : result A :=
  fst (fst o).
Definition bot_of {A} (o : result A * Bot * list Message) : Bot :=
  snd (fst o).
Definition sent_of {A} (o : result A * Bot * list Message) : list Message :=
  snd o.

(** Attribute writes. *)
Definition set_last_hash (h : option pystr) (self : Bot) : Bot :=
  {| webhook_url := webhook_url self; last_hash := h;
     error_count := error_count self; last_success := last_success self |}.

Definition set_error_count (n : Z) (self : Bot) : Bot :=
  {| webhook_url := webhook_url self; last_hash := last_hash self;
     error_count := n; last_success := last_success self |}.

Definition set_last_success (t : option datetime) (self : Bot) : Bot :=
  {| webhook_url := webhook_url self; last_hash := last_hash self;
     error_count := error_count self; last_success := t |}.

(** [self.error_count += 1] *)
Definition incr_error_count : M unit :=
  modify (fun self => set_error_count (error_count self + 1) self).

(** ** The [requests] calls *)

(** [requests.get(self.url, timeout=30)] *)
Definition requests_get (net : reply page) : M (response page) :=
  match net with
  | Fails e => raise e
  | Answers r => ret r
  end.

(** [requests.post(self.webhook_url, json=message, timeout=30)]: the call is
    logged whatever comes of it. *)
Definition requests_post (message : Message) (net : reply unit)
  : M (response unit) :=
  fun self =>
    (match net with Fails e => Raise e | Answers r => Return r end,
     self, [message]).

(** [response.raise_for_status()]: a 4xx or 5xx status raises. *)
Definition bad_status (status : Z) : bool :=
  (400 <=? status) && (status <? 600).

Definition raise_for_status {A} (r : response A) : M unit :=
  if bad_status (status_code r) then raise (HTTPError (status_code r))
  else ret tt.

(** ** The methods *)

(** [get_forecast_discussion]: [now] is what [datetime.now()] reads. *)
Definition get_forecast_discussion (net : reply page) (now : datetime)
  : M (option pystr) :=
  try_except
    (response <- requests_get net ;;
     raise_for_status response ;;
     let discussion := payload response in
     match discussion with
     | Some text =>
         modify (set_error_count 0) ;;
         modify (set_last_success (Some now)) ;;
         ret (Some (strip text))
     | None =>
         incr_error_count ;;
         ret None
     end)
    (fun e =>
       incr_error_count ;;
       ret None).

Definition calculate_hash (content : pystr) : pystr :=
  MD5.hexdigest (encode_utf8 content).

(** [for x in xs: body], the body also told the position of [x]. *)
Fixpoint for_each {A} (i : nat) (xs : list A) (body : nat -> A -> M unit)
  : M unit :=
  match xs with
  | [] => ret tt
  | x :: xs' => body i x ;; for_each (S i) xs' body
  end.

Definition backticks : pystr := lit "```".
Definition bot_name : pystr := lit "NWS Denver Forecast Bot".

Definition wrap (chunk : pystr) : Message :=
  {| content := backticks ++ chunk ++ backticks; username := bot_name |}.

(** [send_discord_message]: [net i] is what the network does with the call
    for chunk [i]. *)
Definition send_discord_message (text : pystr) (net : nat -> reply unit)
  : M unit :=
  let chunks := chunks text in
  for_each 0 chunks (fun i chunk =>
    let message := wrap chunk in
    try_except
      (response <- requests_post message (net i) ;;
       raise_for_status response)
      (fun e => incr_error_count)).

(** [should_restart]: [now] is what [datetime.now()] reads, when it is read. *)
Definition should_restart (now : datetime) : M bool :=
  self <- get_self ;;
  if 5 <=? error_count self then ret true
  else
    match last_success self with
    | Some t => if 3600 <? td_seconds (now - t) then ret true else ret false
    | None => ret false
    end.

(** ** [run] *)

(** Python's truth value of [content]: neither [None] nor empty. *)
Definition truthy (content : option pystr) : bool :=
  match content with
  | Some (_ :: _) => true
  | _ => false
  end.

Definition newline : ascii := ascii_of_nat 10.

Definition initial_framing : pystr :=
  lit "Bot started. Current forecast:" ++ [newline; newline].
Definition update_framing : pystr :=
  lit "New forecast update:" ++ [newline; newline].

(** What the outside world answers during one round of the inner loop. *)
Record cycle := mkCycle {
  check_clock : datetime;           (* read by [should_restart] *)
  fetch_reply : reply page;         (* the answer to the GET *)
  fetch_clock : datetime;           (* read when the fetch succeeds *)
  post_reply : nat -> reply unit    (* the answer to the POST of chunk [i] *)
}.

(** The body of the inner loop, up to the [time.sleep]. *)
Definition run_inner_body (w : cycle) : M unit :=
  content <- get_forecast_discussion (fetch_reply w) (fetch_clock w) ;;
  match content with
  | Some ((_ :: _) as content) =>
      let current_hash := calculate_hash content in
      self <- get_self ;;
      match last_hash self with
      | None =>
          modify (set_last_hash (Some current_hash)) ;;
          send_discord_message (initial_framing ++ content) (post_reply w)
      | Some last =>
          if negb (pystr_eqb current_hash last) then
            modify (set_last_hash (Some current_hash)) ;;
            send_discord_message (update_framing ++ content) (post_reply w)
          else ret tt
      end
  | _ => ret tt
  end.

(** [while not self.should_restart(): ...] over the rounds [ws]: [true] when
    [should_restart] ended the loop, [false] when the rounds ran out with the
    loop still going. *)
Fixpoint run_inner (ws : list cycle) : M bool :=
  match ws with
  | [] => ret false
  | w :: ws' =>
      stop <- should_restart (check_clock w) ;;
      if stop then ret true
      else run_inner_body w ;; run_inner ws'
  end.

(** What the outside world answers during one round of the outer loop. *)
Record session := mkSession {
  start_clock : datetime;   (* read at the top of the outer loop *)
  cycles : list cycle
}.

(** The two assignments at the top of the outer loop. *)
Definition session_start (now : datetime) : M unit :=
  modify (set_error_count 0) ;;
  modify (set_last_success (Some now)).

(** [run]: the outer [while True] over the sessions [ss]; [true] when every
    one of them ended and control is back at the top of the outer loop. *)
Fixpoint run (ss : list session) : M bool :=
  match ss with
  | [] => ret true
  | s :: ss' =>
      ended <- try_except
                 (session_start (start_clock s) ;;
                  run_inner (cycles s))
                 (fun e => ret true) ;;
      if ended then run ss' else ret false
  end.

(** ** A round with the attributes on record at every post *)

(** The log of the monad above keeps the messages.  To tell what is written
    before a post from what is written after it, the same code is run here
    with a log that keeps, beside each message, the attributes of the bot at
    the moment [requests.post] is called. *)
Module Traced.

Record post := mkPost { posted : Message; at_state : Bot }.

Definition T (A : Type) : Type := Bot -> result A * Bot * list post.

Definition ret {A} (a : A) : T A := fun self => (Return a, self, []).

Definition raise {A} (e : exn) : T A := fun self => (Raise e, self, []).

Definition bind {A B} (m : T A) (k : A -> T B) : T B :=
  fun self =>
    match m self with
    | (Return a, self1, log1) =>
        let '(r, self2, log2) := k a self1 in (r, self2, log1 ++ log2)
    | (Raise e, self1, log1) => (Raise e, self1, log1)
    end.

Definition try_except {A} (m : T A) (h : exn -> T A) : T A :=
  fun self =>
    match m self with
    | (Return a, self1, log1) => (Return a, self1, log1)
    | (Raise e, self1, log1) =>
        let '(r, self2, log2) := h e self1 in (r, self2, log1 ++ log2)
    end.

Definition get_self : T Bot := fun self => (Return self, self, []).

Definition modify (f : Bot -> Bot) : T unit :=
  fun self => (Return tt, f self, []).

Declare Scope traced_scope.
Notation "x <- m ;; k" := (bind m (fun x => k))
  (at level 61, m at next level, right associativity) : traced_scope.
Notation "m ;; k" := (bind m (fun _ => k))
  (at level 61, right associativity) : traced_scope.
Local Open Scope traced_scope.

Definition incr_error_count : T unit :=
  modify (fun self => set_error_count (error_count self + 1) self).

Definition requests_get (net : reply page) : T (response page) :=
  match net with
  | Fails e => raise e
  | Answers r => ret r
  end.

(** The call is logged with the attributes it is made under. *)
Definition requests_post (message : Message) (net : reply unit)
  : T (response unit) :=
  fun self =>
    (match net with Fails e => Raise e | Answers r => Return r end,
     self, [{| posted := message; at_state := self |}]).

Definition raise_for_status {A} (r : response A) : T unit :=
  if bad_status (status_code r) then raise (HTTPError (status_code r))
  else ret tt.

Definition get_forecast_discussion (net : reply page) (now : datetime)
  : T (option pystr) :=
  try_except
    (response <- requests_get net ;;
     raise_for_status response ;;
     let discussion := payload response in
     match discussion with
     | Some text =>
         modify (set_error_count 0) ;;
         modify (set_last_success (Some now)) ;;
         ret (Some (strip text))
     | None =>
         incr_error_count ;;
         ret None
     end)
    (fun e =>
       incr_error_count ;;
       ret None).

Fixpoint for_each {A} (i : nat) (xs : list A) (body : nat -> A -> T unit)
  : T unit :=
  match xs with
  | [] => ret tt
  | x :: xs' => body i x ;; for_each (S i) xs' body
  end.

Definition send_discord_message (text : pystr) (net : nat -> reply unit)
  : T unit :=
  let chunks := chunks text in
  for_each 0 chunks (fun i chunk =>
    let message := wrap chunk in
    try_except
      (response <- requests_post message (net i) ;;
       raise_for_status response)
      (fun e => incr_error_count)).

Definition run_inner_body (w : cycle) : T unit :=
  content <- get_forecast_discussion (fetch_reply w) (fetch_clock w) ;;
  match content with
  | Some ((_ :: _) as content) =>
      let current_hash := calculate_hash content in
      self <- get_self ;;
      match last_hash self with
      | None =>
          modify (set_last_hash (Some current_hash)) ;;
          send_discord_message (initial_framing ++ content) (post_reply w)
      | Some last =>
          if negb (pystr_eqb current_hash last) then
            modify (set_last_hash (Some current_hash)) ;;
            send_discord_message (update_framing ++ content) (post_reply w)
          else ret tt
      end
  | _ => ret tt
  end.

End Traced.

(** A traced outcome with the attributes taken off its log. *)
Definition erase {A} (o : result A * Bot * list Traced.post)
  : result A * Bot * list Message :=
  (fst (fst o), snd (fst o), map Traced.posted (snd o)).

(** The attributes on record at the posts of a traced outcome. *)
Definition states_at_posts {A} (o : result A * Bot * list Traced.post)
  : list Bot :=
  map Traced.at_state (snd o).

(** ** The [__main__] block *)

(** [while True: try: bot = NWSDiscordBot(WEBHOOK_URL); bot.run() except
    Exception: ...] over the runs [rs], one list of sessions for each bot that
    is built: the outcome of every bot, in order.  A bot whose run raises is
    followed by a new one; a run that uses up its sessions ends the prefix. *)
Fixpoint main (webhook : pystr) (rs : list (list session))
  : list (result bool * Bot * list Message) :=
  match rs with
  | [] => []
  | ss :: rs' =>
      let bot := __init__ webhook in
      let out := run ss bot in
      match result_of out with
      | Raise _ => out :: main webhook rs'
      | Return _ => [out]
      end
  end.

(** ** How one request can go *)

(** The three ways a fetch fails: the GET raises, the status is one that
    [raise_for_status] rejects, or the page has no [glossaryProduct] element. *)
Definition transport_error (net : reply page) : bool :=
  match net with
  | Fails _ => true
  | Answers _ => false
  end.

Definition non_success_status (net : reply page) : bool :=
  match net with
  | Fails _ => false
  | Answers r => bad_status (status_code r)
  end.

Definition region_absent (net : reply page) : bool :=
  match net with
  | Fails _ => false
  | Answers r => match payload r with None => true | Some _ => false end
  end.

Definition fetch_failed (net : reply page) : bool :=
  transport_error net || non_success_status net || region_absent net.

(** The text of the region, as [get_text()] gives it, when there is one. *)
Definition region_text (net : reply page) : pystr :=
  match net with
  | Answers {| payload := Some text |} => text
  | _ => []
  end.

(** A delivery fails when the POST raises or [raise_for_status] rejects it. *)
Definition post_failed (net : reply unit) : bool :=
  match net with
  | Fails _ => true
  | Answers r => bad_status (status_code r)
  end.

(** How many of the [n] deliveries from position [i] on fail. *)
Definition failures (net : nat -> reply unit) (i n : nat) : Z :=
  Z.of_nat (List.length (filter (fun j => post_failed (net j)) (seq i n))).

(** The attributes after a fetch that succeeded at [now]. *)
Definition fetched_at (now : datetime) (self : Bot) : Bot :=
  set_last_success (Some now) (set_error_count 0 self).

(** The second test of [should_restart]: a success is on record and the
    seconds field of the time since then is above 3600. *)
Definition stale (now : datetime) (self : Bot) : bool :=
  match last_success self with
  | Some t => 3600 <? td_seconds (now - t)
  | None => false
  end.

(** The attributes once the top of the outer loop has run at [now]. *)
Definition started_at (now : datetime) (self : Bot) : Bot :=
  set_last_success (Some now) (set_error_count 0 self).

(** The digits of [hexdigest]. *)
Definition hex_digits : pystr := lit "0123456789abcdef".

(** Every round that the sessions [ss] offer. *)
Definition rounds_of (ss : list session) : list cycle := flat_map cycles ss.

(** What a reader of a message sees between the two fences of backticks. *)
Definition unwrap (m : Message) : pystr :=
  firstn (List.length (content m) - 6) (skipn 3 (content m)).

(** ** Where a run stands, and what it shows *)

(** Round [w] posts a notification when run on [self]. *)
Definition notified (w : cycle) (self : Bot) : Prop :=
  sent_of (run_inner_body w self) <> [].

(** [self] is the bot at the top of the outer loop once a new bot has gone
    through the sessions [ss]. *)
Definition between_sessions (webhook : pystr) (ss : list session)
           (self : Bot) : Prop :=
  exists log, run ss (__init__ webhook) = (Return true, self, log).

(** [self] is the bot about to run round [w]: the sessions [ss] are over, the
    session started at [t0] has gone through the rounds [ws], and
    [should_restart] lets the loop go on into [w]. *)
Definition in_session (webhook : pystr) (ss : list session) (t0 : datetime)
           (ws : list cycle) (w : cycle) (self : Bot) : Prop :=
  exists b log,
    between_sessions webhook ss b
    /\ (session_start t0 ;; run_inner ws) b = (Return false, self, log)
    /\ result_of (should_restart (check_clock w) self) = Return false.

(** The fetch of [w] is the first of its session to succeed. *)
Definition first_success (ws : list cycle) (w : cycle) : Prop :=
  forallb (fun w' => fetch_failed (fetch_reply w')) ws = true
  /\ fetch_failed (fetch_reply w) = false.

(** The fetch of [w] brings no text to announce: it fails, or the region
    strips to nothing. *)
Definition quiet (w : cycle) : bool :=
  fetch_failed (fetch_reply w)
  || match strip (region_text (fetch_reply w)) with
     | [] => true
     | _ :: _ => false
     end.

(** The fingerprint of what the fetch of [w] returns. *)
Definition fingerprint (w : cycle) : pystr :=
  calculate_hash (strip (region_text (fetch_reply w))).

(** The posts of one notification of the text of [w] under [framing]. *)
Definition announcement (framing : pystr) (w : cycle) : list Message :=
  map wrap (chunks (framing ++ strip (region_text (fetch_reply w)))).

(** ** Readings of the specification that are tested on sample runs *)

(** Round [w] notifies exactly when its fetch succeeds and either is the first
    of the session to succeed or brings a fingerprint other than
    [last_hash]. *)
Definition notifies_on_first_or_changed (webhook : pystr) (ss : list session)
           (t0 : datetime) (ws : list cycle) (w : cycle) : Prop :=
  forall self,
    in_session webhook ss t0 ws w self ->
    (notified w self <->
     first_success ws w
     \/ (fetch_failed (fetch_reply w) = false
         /\ last_hash self <> Some (fingerprint w))).

(** The top of the outer loop leaves no fingerprint on record. *)
Definition session_clears_fingerprint (webhook : pystr) (ss : list session)
           (t0 : datetime) : Prop :=
  forall b,
    between_sessions webhook ss b ->
    last_hash (bot_of (session_start t0 b)) = None.

(** The first successful fetch of a session is announced with the initial
    framing, once. *)
Definition first_success_announced (webhook : pystr) (ss : list session)
           (t0 : datetime) (ws : list cycle) (w : cycle) : Prop :=
  forall self,
    in_session webhook ss t0 ws w self ->
    first_success ws w ->
    sent_of (run_inner_body w self) = announcement initial_framing w.

(** A session that has recorded no fetch yet is never ended by
    [should_restart]. *)
Definition no_restart_before_first_fetch (webhook : pystr)
           (ss : list session) (t0 : datetime) : Prop :=
  forall b now,
    between_sessions webhook ss b ->
    result_of (should_restart now (bot_of (session_start t0 b)))
    = Return false.

(** ** Sample answers of the outside world *)

Definition hook : pystr := lit "https://discord.example/api/webhooks/1/x".

Definition ok_page (text : pystr) : reply page :=
  Answers (mkResponse 200 (Some text)).

Definition unavailable : reply page := Answers (mkResponse 503 None).

Definition delivered : nat -> reply unit :=
  fun _ => Answers (mkResponse 204 tt).

Definition undelivered : nat -> reply unit :=
  fun _ => Fails RequestException.

(** A round at second [t] of the run; the webhook works. *)
Definition round (t : Z) (net : reply page) : cycle :=
  {| check_clock := seconds t; fetch_reply := net;
     fetch_clock := seconds t + 500000; post_reply := delivered |}.

(** A round at second [t] of the run whose deliveries all fail. *)
Definition lost_round (t : Z) (net : reply page) : cycle :=
  {| check_clock := seconds t; fetch_reply := net;
     fetch_clock := seconds t + 500000; post_reply := undelivered |}.

Definition T1 : pystr := lit "T1".
Definition T2 : pystr := lit "T2".
Definition blank : pystr := lit "   ".

(** A session that announces [T1], then fails five fetches in a row, so that
    [should_restart] ends it at the seventh check. *)
Definition failing_session : session :=
  {| start_clock := 0;
     cycles := [round 0 (ok_page T1);
                round 300 unavailable; round 600 unavailable;
                round 900 unavailable; round 1200 unavailable;
                round 1500 unavailable; round 1800 unavailable] |}.

(** The bot at the top of the outer loop after [failing_session]. *)
Definition after_failing_session : Bot :=
  bot_of (run [failing_session] (__init__ hook)).

(** A text that takes five messages. *)
Definition long_text : pystr := repeat (ascii_of_nat 97) (8 * 1000).

(** * Properties *)

(** ** Splitting into chunks *)

Section Splitting.

Context {A : Type}.
Variables (s : list A) (step : nat).
Hypothesis step_pos : (0 < step)%nat.

Lemma slice_is_firstn_skipn (i : nat) :
  slice s i (i + step) = firstn step (skipn i s).
Proof. unfold slice. f_equal. lia. Qed.

Lemma slice_length_le (i : nat) :
  (List.length (slice s i (i + step)) <= step)%nat.
Proof. rewrite slice_is_firstn_skipn, length_firstn. lia. Qed.

Lemma range_from_concat (fuel i : nat) :
  (List.length s - i <= fuel)%nat ->
  List.concat (map (fun j => slice s j (j + step))
                 (range_from fuel i (List.length s) step)) = skipn i s.
Proof.
  revert i. induction fuel as [|fuel IH]; intros i Hfuel; simpl.
  - symmetry. apply skipn_all2. lia.
  - destruct (i <? List.length s)%nat eqn:Hlt.
    + apply Nat.ltb_lt in Hlt. simpl.
      rewrite IH by lia.
      rewrite slice_is_firstn_skipn.
      rewrite Nat.add_comm, <- skipn_skipn.
      apply firstn_skipn.
    + apply Nat.ltb_ge in Hlt. simpl.
      symmetry. apply skipn_all2. exact Hlt.
Qed.

Lemma range_from_nth (stop fuel i k : nat) :
  (k < List.length (range_from fuel i stop step))%nat ->
  nth k (range_from fuel i stop step) O = (i + k * step)%nat.
Proof.
  revert i k. induction fuel as [|fuel IH]; intros i k; simpl.
  - lia.
  - destruct (i <? stop)%nat; simpl; [|lia].
    destruct k as [|k]; intros Hk.
    + lia.
    + rewrite IH by lia. lia.
Qed.

(** The number of rounds is the ceiling of [(stop - i) / step]. *)
Lemma range_from_length (stop fuel i : nat) :
  (stop - i <= fuel)%nat ->
  let n := List.length (range_from fuel i stop step) in
  (stop - i <= step * n /\ step * n < stop - i + step)%nat.
Proof.
  revert i. induction fuel as [|fuel IH]; intros i Hfuel; simpl.
  - lia.
  - destruct (i <? stop)%nat eqn:Hlt; simpl.
    + apply Nat.ltb_lt in Hlt.
      specialize (IH (i + step)%nat ltac:(lia)). simpl in IH.
      destruct (List.length (range_from fuel (i + step) stop step));
        rewrite ?Nat.mul_0_r, ?Nat.mul_succ_r in *; lia.
    + apply Nat.ltb_ge in Hlt. lia.
Qed.

End Splitting.

Lemma chunks_concat (text : pystr) : List.concat (chunks text) = text.
Proof.
  unfold chunks, range.
  rewrite (range_from_concat text 1900) by lia.
  reflexivity.
Qed.

Lemma chunks_count (text : pystr) :
  (List.length text <= 1900 * List.length (chunks text)
   /\ 1900 * List.length (chunks text) < List.length text + 1900)%nat.
Proof.
  unfold chunks, range. rewrite length_map.
  pose proof (range_from_length 1900 ltac:(lia)
                (List.length text) (List.length text - 0) 0 ltac:(lia)) as H.
  cbv zeta in H. rewrite !Nat.sub_0_r in *. exact H.
Qed.

Lemma chunks_nth (text : pystr) (k : nat) :
  (k < List.length (chunks text))%nat ->
  nth k (chunks text) [] = firstn 1900 (skipn (1900 * k) text).
Proof.
  unfold chunks, range. rewrite length_map. intros Hk.
  rewrite (nth_indep _ [] (slice text O (O + 1900)))
    by (rewrite length_map; exact Hk).
  rewrite (map_nth (fun i => slice text i (i + 1900))).
  rewrite (range_from_nth 1900 ltac:(lia)) by exact Hk.
  rewrite slice_is_firstn_skipn by lia. do 2 f_equal. lia.
Qed.

Lemma chunks_nonempty (text : pystr) : text <> [] -> chunks text <> [].
Proof.
  intros Hne Hnil. apply Hne.
  rewrite <- (chunks_concat text), Hnil. reflexivity.
Qed.

(** ** Stripping *)

Lemma lstrip_split (s : pystr) :
  exists ws, s = ws ++ lstrip s /\ forallb is_space ws = true.
Proof.
  induction s as [|c s IH]; simpl.
  - exists []. auto.
  - destruct (is_space c) eqn:Hc.
    + destruct IH as [ws [Heq Hws]].
      exists (c :: ws). simpl. rewrite Hc, Hws. split; [congruence|reflexivity].
    + exists []. auto.
Qed.

Lemma lstrip_head (s : pystr) (c : ascii) (rest : pystr) :
  lstrip s = c :: rest -> is_space c = false.
Proof.
  induction s as [|d s IH]; simpl; [discriminate|].
  destruct (is_space d) eqn:Hd; [exact IH|].
  intros H. injection H as -> _. exact Hd.
Qed.

(** Dropping spaces at the front of [s ++ [c]] with [c] no space leaves the
    last character in place. *)
Lemma lstrip_snoc (s : pystr) (c : ascii) :
  is_space c = false -> lstrip (s ++ [c]) = lstrip s ++ [c].
Proof.
  intros Hc. induction s as [|d s IH]; simpl.
  - rewrite Hc. reflexivity.
  - destruct (is_space d); [exact IH|reflexivity].
Qed.

Lemma rstrip_split (s : pystr) :
  exists ws, s = rstrip s ++ ws /\ forallb is_space ws = true.
Proof.
  unfold rstrip. destruct (lstrip_split (rev s)) as [ws [Heq Hws]].
  exists (rev ws). split.
  - rewrite <- rev_app_distr, <- Heq, rev_involutive. reflexivity.
  - rewrite forallb_forall in *. intros x Hx. apply Hws, in_rev, Hx.
Qed.

Lemma rstrip_last (s front : pystr) (c : ascii) :
  rstrip s = front ++ [c] -> is_space c = false.
Proof.
  unfold rstrip. intros H.
  apply (f_equal (@rev ascii)) in H.
  rewrite rev_involutive, rev_app_distr in H. simpl in H.
  exact (lstrip_head _ _ _ H).
Qed.

(** Dropping spaces at the back keeps a first character that is no space. *)
Lemma rstrip_head (s rest : pystr) (c : ascii) :
  (forall d tl, s = d :: tl -> is_space d = false) ->
  rstrip s = c :: rest -> is_space c = false.
Proof.
  unfold rstrip. intros Hhead.
  destruct s as [|d tl]; [discriminate|].
  pose proof (Hhead d tl eq_refl) as Hd.
  simpl. rewrite (lstrip_snoc (rev tl) d Hd), rev_app_distr. simpl.
  intros H. injection H as -> _. exact Hd.
Qed.

(** [strip] removes spaces only, from both ends, and all of them there. *)
Lemma strip_spec (s : pystr) :
  (exists front back,
      s = front ++ strip s ++ back
      /\ forallb is_space front = true /\ forallb is_space back = true)
  /\ (forall c rest, strip s = c :: rest -> is_space c = false)
  /\ (forall c front, strip s = front ++ [c] -> is_space c = false).
Proof.
  unfold strip. repeat split.
  - destruct (lstrip_split s) as [front [Hf Hfs]].
    destruct (rstrip_split (lstrip s)) as [back [Hb Hbs]].
    exists front, back. repeat split; try assumption.
    rewrite <- Hb. exact Hf.
  - intros c rest. apply rstrip_head.
    intros d tl Htl. exact (lstrip_head s d tl Htl).
  - intros c front. apply rstrip_last.
Qed.

(** ** The monad *)

Arguments calculate_hash : simpl never.
Arguments chunks : simpl never.
Arguments send_discord_message : simpl never.

(** A step that returns without logging hands its state to the rest. *)
Lemma bind_quiet {A B} (m : M A) (k : A -> M B) (self self1 : Bot) (a : A) :
  m self = (Return a, self1, []) -> bind m k self = k a self1.
Proof.
  intros Hm. unfold bind. rewrite Hm.
  destruct (k a self1) as [[r self2] log2]. reflexivity.
Qed.

Lemma set_error_count_same (self : Bot) :
  set_error_count (error_count self) self = self.
Proof. destruct self. reflexivity. Qed.

Lemma pystr_eqb_eq (a b : pystr) : pystr_eqb a b = true <-> a = b.
Proof.
  unfold pystr_eqb. destruct (list_eq_dec ascii_dec a b); split;
    intros; congruence.
Qed.

Lemma pystr_eqb_refl (a : pystr) : pystr_eqb a a = true.
Proof. apply pystr_eqb_eq. reflexivity. Qed.

(** ** [get_forecast_discussion] *)

Lemma get_forecast_discussion_eq (net : reply page) (now : datetime)
      (self : Bot) :
  get_forecast_discussion net now self =
  if fetch_failed net
  then (Return None, set_error_count (error_count self + 1) self, [])
  else (Return (Some (strip (region_text net))), fetched_at now self, []).
Proof.
  destruct net as [e | [status [text|]]];
    unfold get_forecast_discussion, fetch_failed, transport_error,
      non_success_status, region_absent, try_except, bind, requests_get,
      raise_for_status, incr_error_count, modify, ret, raise; simpl;
    try reflexivity;
    destruct (bad_status status); reflexivity.
Qed.

(** ** [send_discord_message] *)

Lemma failures_step (net : nat -> reply unit) (i n : nat) :
  failures net i (S n) =
  (if post_failed (net i) then 1 else 0) + failures net (S i) n.
Proof.
  unfold failures. simpl seq. simpl filter.
  destruct (post_failed (net i)); simpl List.length; lia.
Qed.

Lemma failures_snoc (net : nat -> reply unit) (n : nat) :
  failures net 0 (S n) =
  failures net 0 n + (if post_failed (net n) then 1 else 0).
Proof.
  unfold failures. rewrite seq_S, filter_app, length_app. simpl.
  destruct (post_failed (net n)); simpl; lia.
Qed.

(** One round of the delivery loop: the call is logged, a failure is counted,
    nothing is raised. *)
Lemma deliver_one (chunk : pystr) (net : reply unit) (self : Bot) :
  try_except
    (response <- requests_post (wrap chunk) net ;; raise_for_status response)
    (fun e => incr_error_count) self =
  (Return tt,
   set_error_count (error_count self + if post_failed net then 1 else 0) self,
   [wrap chunk]).
Proof.
  destruct net as [e | [status []]];
    unfold try_except, bind, requests_post, raise_for_status,
      incr_error_count, modify, ret, raise, post_failed; simpl.
  - reflexivity.
  - destruct (bad_status status); simpl;
      rewrite ?Z.add_0_r, ?set_error_count_same; reflexivity.
Qed.

Lemma for_each_deliver (net : nat -> reply unit) (xs : list pystr) :
  forall (i : nat) (self : Bot),
    for_each i xs (fun i chunk =>
      try_except
        (response <- requests_post (wrap chunk) (net i) ;;
         raise_for_status response)
        (fun e => incr_error_count)) self =
    (Return tt,
     set_error_count (error_count self + failures net i (List.length xs)) self,
     map wrap xs).
Proof.
  induction xs as [|x xs IH]; intros i self.
  - unfold failures. simpl. unfold ret.
    rewrite Z.add_0_r, set_error_count_same. reflexivity.
  - cbn [for_each List.length map]. unfold bind at 1.
    rewrite deliver_one, IH, failures_step. simpl.
    do 2 f_equal. unfold set_error_count. simpl. f_equal. lia.
Qed.

Lemma send_discord_message_eq (text : pystr) (net : nat -> reply unit)
      (self : Bot) :
  send_discord_message text net self =
  (Return tt,
   set_error_count
     (error_count self + failures net 0 (List.length (chunks text))) self,
   map wrap (chunks text)).
Proof. unfold send_discord_message. apply for_each_deliver. Qed.

(** ** [should_restart] *)

Lemma should_restart_eq (now : datetime) (self : Bot) :
  should_restart now self =
  (Return ((5 <=? error_count self) || stale now self), self, []).
Proof.
  unfold should_restart, stale, bind, get_self, ret.
  destruct (5 <=? error_count self); [reflexivity|].
  destruct (last_success self) as [t|]; [|reflexivity].
  destruct (3600 <? td_seconds (now - t)); reflexivity.
Qed.

(** ** One round of the inner loop *)

Lemma run_inner_body_eq (w : cycle) (self : Bot) :
  run_inner_body w self =
  if fetch_failed (fetch_reply w)
  then (Return tt, set_error_count (error_count self + 1) self, [])
  else
    let fetched := fetched_at (fetch_clock w) self in
    match strip (region_text (fetch_reply w)) with
    | [] => (Return tt, fetched, [])
    | (_ :: _) as content =>
        let current_hash := calculate_hash content in
        match last_hash self with
        | None =>
            send_discord_message (initial_framing ++ content) (post_reply w)
              (set_last_hash (Some current_hash) fetched)
        | Some last =>
            if pystr_eqb current_hash last then (Return tt, fetched, [])
            else
              send_discord_message (update_framing ++ content) (post_reply w)
                (set_last_hash (Some current_hash) fetched)
        end
    end.
Proof.
  unfold run_inner_body.
  pose proof (get_forecast_discussion_eq (fetch_reply w) (fetch_clock w) self)
    as Hfetch.
  destruct (fetch_failed (fetch_reply w)).
  - rewrite (bind_quiet _ _ _ _ _ Hfetch). reflexivity.
  - rewrite (bind_quiet _ _ _ _ _ Hfetch). cbv zeta.
    destruct (strip (region_text (fetch_reply w))) as [|c content];
      [reflexivity|].
    rewrite (bind_quiet get_self _ _ _ _ eq_refl).
    change (last_hash (fetched_at (fetch_clock w) self))
      with (last_hash self).
    destruct (last_hash self) as [last|].
    + destruct (pystr_eqb (calculate_hash (c :: content)) last);
        [reflexivity|]. cbn [negb]. cbv beta iota.
      unfold bind, modify.
      destruct (send_discord_message _ _ _) as [[r self2] log2]. reflexivity.
    + unfold bind, modify.
      destruct (send_discord_message _ _ _) as [[r self2] log2]. reflexivity.
Qed.

(** A notification always has something to post: the framing is not empty. *)
Lemma framed_posts (framing content : pystr) (net : nat -> reply unit)
      (self : Bot) :
  framing <> [] ->
  sent_of (send_discord_message (framing ++ content) net self) <> [].
Proof.
  intros Hne. rewrite send_discord_message_eq. unfold sent_of. simpl.
  intros Hnil. apply map_eq_nil in Hnil.
  apply (chunks_nonempty (framing ++ content)); [|exact Hnil].
  destruct framing; [congruence|discriminate].
Qed.

Lemma initial_framing_nonempty : initial_framing <> [].
Proof. discriminate. Qed.

Lemma update_framing_nonempty : update_framing <> [].
Proof. discriminate. Qed.

(** ** The loops *)

Lemma session_start_eq (t0 : datetime) (self : Bot) :
  session_start t0 self =
  (Return tt, set_last_success (Some t0) (set_error_count 0 self), []).
Proof. reflexivity. Qed.

Lemma run_inner_cons (w : cycle) (ws : list cycle) (self : Bot) :
  run_inner (w :: ws) self =
  if (5 <=? error_count self) || stale (check_clock w) self
  then (Return true, self, [])
  else (run_inner_body w ;; run_inner ws) self.
Proof.
  cbn [run_inner].
  rewrite (bind_quiet _ _ _ _ _ (should_restart_eq (check_clock w) self)).
  destruct ((5 <=? error_count self) || stale (check_clock w) self);
    reflexivity.
Qed.

(** Rounds that bring no text leave an unset fingerprint unset, and post
    nothing. *)
Lemma run_inner_quiet (ws : list cycle) :
  forall (self self' : Bot) (r : result bool) (log : list Message),
    last_hash self = None ->
    forallb quiet ws = true ->
    run_inner ws self = (r, self', log) ->
    last_hash self' = None /\ log = [].
Proof.
  induction ws as [|w ws IH]; intros self self' r log Hnone Hquiet Hrun.
  - cbn in Hrun. unfold ret in Hrun. injection Hrun as _ <- <-. auto.
  - cbn [forallb] in Hquiet. apply andb_true_iff in Hquiet as [Hw Hws].
    rewrite run_inner_cons in Hrun.
    destruct ((5 <=? error_count self) || stale (check_clock w) self).
    + injection Hrun as _ <- <-. auto.
    + unfold bind in Hrun. rewrite run_inner_body_eq in Hrun.
      unfold quiet in Hw.
      destruct (fetch_failed (fetch_reply w)).
      * destruct (run_inner ws _) as [[r2 self2] log2] eqn:Hrest.
        injection Hrun as _ <- <-.
        eapply IH; [|exact Hws|exact Hrest]. exact Hnone.
      * cbv zeta in Hrun.
        destruct (strip (region_text (fetch_reply w))); [|discriminate].
        destruct (run_inner ws _) as [[r2 self2] log2] eqn:Hrest.
        injection Hrun as _ <- <-.
        eapply IH; [|exact Hws|exact Hrest]. exact Hnone.
Qed.

(** Failed fetches only count up. *)
Lemma failed_fetches (now : datetime) (nets : list (reply page)) :
  forall self : Bot,
    forallb fetch_failed nets = true ->
    fold_left (fun b net => bot_of (get_forecast_discussion net now b))
              nets self
    = set_error_count (error_count self + Z.of_nat (List.length nets)) self.
Proof.
  induction nets as [|net nets IH]; intros self Hall.
  - cbn. rewrite Z.add_0_r, set_error_count_same. reflexivity.
  - cbn [forallb] in Hall. apply andb_true_iff in Hall as [Hnet Hnets].
    cbn [fold_left]. rewrite get_forecast_discussion_eq, Hnet.
    rewrite IH by exact Hnets.
    unfold set_error_count, bot_of.
    cbn [fst snd error_count webhook_url last_hash last_success List.length].
    f_equal. rewrite Nat2Z.inj_succ. lia.
Qed.

(** While a success is on record and between 3601 seconds and a day have
    passed since, the bot is stale. *)
Lemma stale_within_a_day (now t : datetime) (self : Bot) :
  last_success self = Some t ->
  seconds 3601 <= now - t < seconds 86400 ->
  stale now self = true.
Proof.
  unfold stale, td_seconds, seconds. intros -> [Hlo Hhi].
  apply Z.ltb_lt.
  assert (3601 <= (now - t) / 1000000)
    by (apply Z.div_le_lower_bound; lia).
  assert ((now - t) / 1000000 < 86400)
    by (apply Z.div_lt_upper_bound; lia).
  rewrite Z.mod_small; lia.
Qed.

Lemma fresh_within_the_hour (now t : datetime) (self : Bot) :
  last_success self = Some t ->
  0 <= now - t <= seconds 3600 ->
  stale now self = false.
Proof.
  unfold stale, td_seconds, seconds. intros -> [Hlo Hhi].
  apply Z.ltb_ge.
  assert (0 <= (now - t) / 1000000) by (apply Z.div_pos; lia).
  assert ((now - t) / 1000000 <= 3600)
    by (apply Z.div_le_upper_bound; lia).
  rewrite Z.mod_small; lia.
Qed.

(** The seconds field forgets whole days. *)
Lemma td_seconds_drops_days (days secs : Z) :
  0 <= secs < 86400 ->
  td_seconds (seconds (86400 * days + secs)) = secs.
Proof.
  intros Hsecs. unfold td_seconds, seconds.
  rewrite Z.div_mul by discriminate.
  rewrite Z.add_comm, Z.mul_comm, Z.mod_add by discriminate.
  apply Z.mod_small, Hsecs.
Qed.

(** ** The traced round *)

Lemma traced_bind_quiet {A B} (m : Traced.T A) (k : A -> Traced.T B)
      (self self1 : Bot) (a : A) :
  m self = (Return a, self1, []) -> Traced.bind m k self = k a self1.
Proof.
  intros Hm. unfold Traced.bind. rewrite Hm.
  destruct (k a self1) as [[r self2] log2]. reflexivity.
Qed.

Lemma traced_get_forecast_discussion_eq (net : reply page) (now : datetime)
      (self : Bot) :
  Traced.get_forecast_discussion net now self =
  if fetch_failed net
  then (Return None, set_error_count (error_count self + 1) self, [])
  else (Return (Some (strip (region_text net))), fetched_at now self, []).
Proof.
  destruct net as [e | [status [text|]]];
    unfold Traced.get_forecast_discussion, fetch_failed, transport_error,
      non_success_status, region_absent, Traced.try_except, Traced.bind,
      Traced.requests_get, Traced.raise_for_status,
      Traced.incr_error_count, Traced.modify, Traced.ret, Traced.raise;
    simpl; try reflexivity;
    destruct (bad_status status); reflexivity.
Qed.

(** One traced delivery: the attributes on record are those the call is
    entered with. *)
Lemma traced_deliver_one (chunk : pystr) (net : reply unit) (self : Bot) :
  Traced.try_except
    (Traced.bind (Traced.requests_post (wrap chunk) net)
                 (fun response => Traced.raise_for_status response))
    (fun e => Traced.incr_error_count) self =
  (Return tt,
   set_error_count (error_count self + if post_failed net then 1 else 0) self,
   [{| Traced.posted := wrap chunk; Traced.at_state := self |}]).
Proof.
  destruct net as [e | [status []]];
    unfold Traced.try_except, Traced.bind, Traced.requests_post,
      Traced.raise_for_status, Traced.incr_error_count, Traced.modify,
      Traced.ret, Traced.raise, post_failed; simpl.
  - reflexivity.
  - destruct (bad_status status); simpl;
      rewrite ?Z.add_0_r, ?set_error_count_same; reflexivity.
Qed.

(** The traced delivery loop does what the plain one does, and every post
    is made under the fingerprint the loop is entered with. *)
Lemma traced_for_each_deliver (net : nat -> reply unit) (xs : list pystr) :
  forall (i : nat) (self : Bot),
    let out :=
      Traced.for_each i xs (fun i chunk =>
        Traced.try_except
          (Traced.bind (Traced.requests_post (wrap chunk) (net i))
                       (fun response => Traced.raise_for_status response))
          (fun e => Traced.incr_error_count)) self in
    erase out
    = (Return tt,
       set_error_count (error_count self + failures net i (List.length xs))
                       self,
       map wrap xs)
    /\ Forall (fun b => last_hash b = last_hash self) (states_at_posts out).
Proof.
  induction xs as [|x xs IH]; intros i self; cbv zeta.
  - unfold failures. cbn. unfold erase. cbn.
    rewrite Z.add_0_r, set_error_count_same. split; [reflexivity|constructor].
  - set (body := fun (i : nat) (chunk : pystr) =>
        Traced.try_except
          (Traced.bind (Traced.requests_post (wrap chunk) (net i))
                       (fun response => Traced.raise_for_status response))
          (fun e => Traced.incr_error_count)) in *.
    set (self1 := set_error_count
                    (error_count self
                     + if post_failed (net i) then 1 else 0) self).
    assert (Hstep : Traced.for_each i (x :: xs) body self
                    = let '(r, b, l) := Traced.for_each (S i) xs body self1 in
                      (r, b, {| Traced.posted := wrap x;
                                Traced.at_state := self |} :: l)).
    { cbn [Traced.for_each]. unfold Traced.bind at 1. unfold body at 1.
      rewrite traced_deliver_one. reflexivity. }
    rewrite Hstep. specialize (IH (S i) self1). cbv zeta in IH.
    destruct IH as [Herase Hstates].
    destruct (Traced.for_each (S i) xs body self1) as [[r self2] log2].
    unfold erase, states_at_posts in *.
    cbn [fst snd app map List.length Traced.posted Traced.at_state] in *.
    injection Herase as -> -> ->. split.
    + rewrite failures_step. unfold self1, set_error_count.
      cbn [error_count webhook_url last_hash last_success].
      do 2 f_equal. f_equal. lia.
    + constructor; [reflexivity|exact Hstates].
Qed.

Lemma traced_send_discord_message (text : pystr) (net : nat -> reply unit)
      (self : Bot) :
  erase (Traced.send_discord_message text net self)
  = send_discord_message text net self
  /\ Forall (fun b => last_hash b = last_hash self)
            (states_at_posts (Traced.send_discord_message text net self)).
Proof.
  rewrite send_discord_message_eq.
  apply (traced_for_each_deliver net (chunks text) 0 self).
Qed.

Lemma traced_run_inner_body_eq (w : cycle) (self : Bot) :
  Traced.run_inner_body w self =
  if fetch_failed (fetch_reply w)
  then (Return tt, set_error_count (error_count self + 1) self, [])
  else
    let fetched := fetched_at (fetch_clock w) self in
    match strip (region_text (fetch_reply w)) with
    | [] => (Return tt, fetched, [])
    | (_ :: _) as content =>
        let current_hash := calculate_hash content in
        match last_hash self with
        | None =>
            Traced.send_discord_message (initial_framing ++ content)
              (post_reply w) (set_last_hash (Some current_hash) fetched)
        | Some last =>
            if pystr_eqb current_hash last then (Return tt, fetched, [])
            else
              Traced.send_discord_message (update_framing ++ content)
                (post_reply w) (set_last_hash (Some current_hash) fetched)
        end
    end.
Proof.
  unfold Traced.run_inner_body.
  pose proof (traced_get_forecast_discussion_eq
                (fetch_reply w) (fetch_clock w) self) as Hfetch.
  destruct (fetch_failed (fetch_reply w)).
  - rewrite (traced_bind_quiet _ _ _ _ _ Hfetch). reflexivity.
  - rewrite (traced_bind_quiet _ _ _ _ _ Hfetch). cbv zeta.
    destruct (strip (region_text (fetch_reply w))) as [|c content];
      [reflexivity|].
    rewrite (traced_bind_quiet Traced.get_self _ _ _ _ eq_refl).
    change (last_hash (fetched_at (fetch_clock w) self))
      with (last_hash self).
    destruct (last_hash self) as [last|].
    + destruct (pystr_eqb (calculate_hash (c :: content)) last);
        [reflexivity|]. cbn [negb]. cbv beta iota.
      unfold Traced.bind, Traced.modify.
      destruct (Traced.send_discord_message _ _ _) as [[r self2] log2].
      reflexivity.
    + unfold Traced.bind, Traced.modify.
      destruct (Traced.send_discord_message _ _ _) as [[r self2] log2].
      reflexivity.
Qed.

(** The traced round is the round: same result, same attributes, same
    messages. *)
Lemma traced_round_erases (w : cycle) (self : Bot) :
  erase (Traced.run_inner_body w self) = run_inner_body w self.
Proof.
  rewrite traced_run_inner_body_eq, run_inner_body_eq.
  destruct (fetch_failed (fetch_reply w)); [reflexivity|]. cbv zeta.
  destruct (strip (region_text (fetch_reply w))) as [|c content];
    [reflexivity|].
  destruct (last_hash self) as [last|].
  - destruct (pystr_eqb _ last); [reflexivity|].
    exact (proj1 (traced_send_discord_message _ _ _)).
  - exact (proj1 (traced_send_discord_message _ _ _)).
Qed.

(** In a round that notifies, the fingerprint on record before the round is
    not the new one, and at every post it already is. *)
Lemma traced_round_states (w : cycle) (self : Bot) :
  notified w self ->
  last_hash self <> Some (fingerprint w)
  /\ Forall (fun b => last_hash b = Some (fingerprint w))
            (states_at_posts (Traced.run_inner_body w self)).
Proof.
  unfold notified, fingerprint.
  rewrite traced_run_inner_body_eq, run_inner_body_eq.
  destruct (fetch_failed (fetch_reply w));
    [intros H; now contradiction H|]. cbv zeta.
  destruct (strip (region_text (fetch_reply w))) as [|c content];
    [intros H; now contradiction H|].
  destruct (last_hash self) as [last|].
  - destruct (pystr_eqb (calculate_hash (c :: content)) last) eqn:Heqb;
      [intros H; now contradiction H|].
    intros _. split.
    + intros Hsame. injection Hsame as ->.
      rewrite pystr_eqb_refl in Heqb. discriminate.
    + match goal with
      | |- Forall _ (states_at_posts
                       (Traced.send_discord_message ?t ?n ?b)) =>
          exact (proj2 (traced_send_discord_message t n b))
      end.
  - intros _. split; [discriminate|].
    match goal with
    | |- Forall _ (states_at_posts
                     (Traced.send_discord_message ?t ?n ?b)) =>
        exact (proj2 (traced_send_discord_message t n b))
    end.
Qed.

(** ** The model on known values *)

Example md5_of_nothing :
  calculate_hash [] = lit "d41d8cd98f00b204e9800998ecf8427e".
Proof. vm_compute. reflexivity. Qed.

Example md5_of_abc :
  calculate_hash (lit "abc") = lit "900150983cd24fb0d6963f7d28e17f72".
Proof. vm_compute. reflexivity. Qed.

(** Two blocks, and a character that takes two bytes. *)
Example md5_of_long_text :
  calculate_hash (repeat (ascii_of_nat 97) 100)
  = lit "36a92cc94a9e0fa21f625f8bfb007adf"
  /\ calculate_hash [ascii_of_nat 233]
     = lit "66ddcd97cfdeabb2f6fb8a999b4bc76f".
Proof. split; vm_compute; reflexivity. Qed.

Example range_of_5000 : range 0 5000 1900 = [0; 1900; 3800]%nat.
Proof. vm_compute. reflexivity. Qed.

Example strip_keeps_inner_space : strip (lit "  a b  ") = lit "a b".
Proof. reflexivity. Qed.

Example seconds_field :
  td_seconds (seconds 3601) = 3601
  /\ td_seconds (seconds 3600 + 999999) = 3600
  /\ td_seconds (seconds (-600)) = 85800.
Proof. repeat split. Qed.

(** One session: [T1] is announced as the start, [T1] again is not
    announced, [T2] is announced as an update. *)
Example three_rounds :
  sent_of (run [{| start_clock := 0;
                   cycles := [round 0 (ok_page T1);
                              round 300 (ok_page T1);
                              round 600 (ok_page T2)] |}]
               (__init__ hook))
  = [wrap (initial_framing ++ T1); wrap (update_framing ++ T2)].
Proof. vm_compute. reflexivity. Qed.

(** * The claims *)

(** C6: the text is cut into consecutive pieces of at most 1900 characters:
    the number of pieces is the least [n] with [len <= 1900 * n], that is the
    ceiling of [len / 1900]; piece [k] is the 1900 characters from position
    [1900 * k] on (fewer at the end); and the pieces put together give the
    text back.  This holds for the empty text too, which has no piece. *)
Theorem C6_chunks_split_and_rejoin (text : pystr) :
  let n := List.length (chunks text) in
  let len := List.length text in
  ((len <= 1900 * n)%nat /\ forall m, (len <= 1900 * m)%nat -> (n <= m)%nat)
  /\ Forall (fun piece => (List.length piece <= 1900)%nat) (chunks text)
  /\ (forall k, (k < n)%nat ->
        nth k (chunks text) [] = firstn 1900 (skipn (1900 * k) text))
  /\ List.concat (chunks text) = text.
Proof.
  cbv zeta. pose proof (chunks_count text) as [Hlo Hhi].
  repeat split.
  - exact Hlo.
  - intros m Hm. lia.
  - unfold chunks. apply Forall_map, Forall_forall. intros i _.
    apply (slice_length_le text 1900). lia.
  - intros k Hk. apply chunks_nth, Hk.
  - apply chunks_concat.
Qed.

(** C7: whatever the network does with each call, [send_discord_message]
    returns normally, has posted every chunk once and in order (so a failure
    on one chunk does not stop the later ones), and has added to the error
    count the number of failed deliveries, one for each; the other attributes
    are as they were. *)
Theorem C7_delivery_failures_are_counted_and_absorbed
        (text : pystr) (net : nat -> reply unit) (self : Bot) :
  let n := List.length (chunks text) in
  let out := send_discord_message text net self in
  result_of out = Return tt
  /\ sent_of out = map wrap (chunks text)
  /\ error_count (bot_of out) = error_count self + failures net 0 n
  /\ (forall i, failures net 0 (S i)
                = failures net 0 i + if post_failed (net i) then 1 else 0)
  /\ last_hash (bot_of out) = last_hash self
  /\ last_success (bot_of out) = last_success self.
Proof.
  cbv zeta. rewrite send_discord_message_eq.
  repeat split. intros i. apply failures_snoc.
Qed.

(** C9: a fetch that meets a transport error, a status that
    [raise_for_status] rejects, or a page without the region returns [None]
    and leaves the error count one higher than it was, with the last success
    and the fingerprint as they were; any other fetch leaves the error count
    at zero and the last success at the clock reading, and returns the
    region's text without the white space at its two ends.  Neither posts
    anything. *)
Theorem C9_fetch_reports_its_outcome
        (net : reply page) (now : datetime) (self : Bot) :
  let out := get_forecast_discussion net now self in
  (fetch_failed net = true ->
   result_of out = Return None
   /\ error_count (bot_of out) = error_count self + 1
   /\ last_success (bot_of out) = last_success self
   /\ last_hash (bot_of out) = last_hash self
   /\ webhook_url (bot_of out) = webhook_url self
   /\ sent_of out = []
   /\ out = (Return None, set_error_count (error_count self + 1) self, []))
  /\ (fetch_failed net = false ->
      exists status text,
        net = Answers (mkResponse status (Some text))
        /\ result_of out = Return (Some (strip text))
        /\ error_count (bot_of out) = 0
        /\ last_success (bot_of out) = Some now
        /\ last_hash (bot_of out) = last_hash self
        /\ webhook_url (bot_of out) = webhook_url self
        /\ sent_of out = []
        /\ out = (Return (Some (strip text)),
                  set_last_success (Some now) (set_error_count 0 self), [])
        /\ (exists front back,
               text = front ++ strip text ++ back
               /\ forallb is_space front = true
               /\ forallb is_space back = true)
        /\ (forall c rest, strip text = c :: rest -> is_space c = false)
        /\ (forall c front, strip text = front ++ [c] -> is_space c = false)).
Proof.
  cbv zeta. split; intros Hnet.
  - rewrite get_forecast_discussion_eq, Hnet.
    unfold result_of, bot_of, sent_of.
    cbn [fst snd error_count last_success last_hash webhook_url
         set_error_count].
    repeat split.
  - pose proof (get_forecast_discussion_eq net now self) as Heq.
    rewrite Hnet in Heq.
    destruct net as [e | [status [text|]]]; try discriminate.
    2: { unfold fetch_failed in Hnet. cbn in Hnet.
         rewrite orb_true_r in Hnet. discriminate. }
    exists status, text. split; [reflexivity|].
    rewrite Heq. unfold result_of, bot_of, sent_of, fetched_at.
    cbn [fst snd error_count last_success last_hash webhook_url
         set_error_count set_last_success region_text payload].
    repeat (split; [reflexivity|]).
    apply strip_spec.
Qed.

Lemma C9_fetch_reports_its_outcome_witness :
  (let out := get_forecast_discussion unavailable 7
                (set_error_count 3 (__init__ hook)) in
   result_of out = Return None /\ error_count (bot_of out) = 4
   /\ last_success (bot_of out) = None)
  /\ (let out := get_forecast_discussion (ok_page (lit " T1 ")) 7
                   (set_error_count 3 (__init__ hook)) in
      result_of out = Return (Some T1) /\ error_count (bot_of out) = 0
      /\ last_success (bot_of out) = Some 7).
Proof.
  cbv zeta. split.
  - destruct (proj1 (C9_fetch_reports_its_outcome
                       unavailable 7 (set_error_count 3 (__init__ hook)))
                    eq_refl)
      as [Hres [Hcount [Hlast _]]].
    split; [exact Hres|]. split; [exact Hcount|exact Hlast].
  - destruct (proj2 (C9_fetch_reports_its_outcome (ok_page (lit " T1 ")) 7
                       (set_error_count 3 (__init__ hook))) eq_refl)
      as [status [text [Hnet [Hres [Hcount [Hlast _]]]]]].
    injection Hnet as _ <-.
    split; [exact Hres|]. split; [exact Hcount|exact Hlast].
Defined.

(** C10: when the region is there but its text strips to nothing, the fetch
    counts as a success (error count zero, last success set to the clock
    reading) and returns the empty string; the round then computes no
    fingerprint, posts nothing, and leaves [last_hash] as it was. *)
Theorem C10_blank_region_is_a_silent_success (w : cycle) (self : Bot) :
  fetch_failed (fetch_reply w) = false ->
  strip (region_text (fetch_reply w)) = [] ->
  get_forecast_discussion (fetch_reply w) (fetch_clock w) self
  = (Return (Some []), fetched_at (fetch_clock w) self, [])
  /\ run_inner_body w self
     = (Return tt, fetched_at (fetch_clock w) self, [])
  /\ error_count (fetched_at (fetch_clock w) self) = 0
  /\ last_success (fetched_at (fetch_clock w) self) = Some (fetch_clock w)
  /\ last_hash (fetched_at (fetch_clock w) self) = last_hash self.
Proof.
  intros Hok Hblank. repeat split.
  - rewrite get_forecast_discussion_eq, Hok, Hblank. reflexivity.
  - rewrite run_inner_body_eq, Hok. cbv zeta. rewrite Hblank. reflexivity.
Qed.

Lemma C10_blank_region_is_a_silent_success_witness :
  run_inner_body (round 0 (ok_page blank))
                 (set_error_count 2 (set_last_hash (Some T1) (__init__ hook)))
  = (Return tt,
     set_last_success (Some 500000)
       (set_last_hash (Some T1) (__init__ hook)), []).
Proof.
  apply (C10_blank_region_is_a_silent_success
           (round 0 (ok_page blank))
           (set_error_count 2 (set_last_hash (Some T1) (__init__ hook))));
    reflexivity.
Defined.

(** C4: as long as the time test does not fire, [should_restart] answers
    whether the error count has reached 5; starting from a count of zero,
    five failed fetches in a row make it answer true, four make it answer
    false. *)
Theorem C4_restart_at_five_failures
        (self : Bot) (now : datetime) (nets : list (reply page)) :
  error_count self = 0 ->
  forallb fetch_failed nets = true ->
  stale now self = false ->
  let after :=
    fold_left (fun b net => bot_of (get_forecast_discussion net now b))
              nets self in
  error_count after = Z.of_nat (List.length nets)
  /\ result_of (should_restart now after) = Return (5 <=? error_count after)
  /\ (List.length nets = 5%nat ->
      result_of (should_restart now after) = Return true)
  /\ (List.length nets = 4%nat ->
      result_of (should_restart now after) = Return false).
Proof.
  intros Hzero Hall Hfresh. cbv zeta.
  rewrite (failed_fetches now nets self Hall), Hzero.
  set (after := set_error_count _ self).
  assert (Hcount : error_count after = Z.of_nat (List.length nets))
    by reflexivity.
  assert (Hstale : stale now after = false) by exact Hfresh.
  assert (Hres : result_of (should_restart now after)
                 = Return (5 <=? error_count after)).
  { rewrite should_restart_eq. unfold result_of. cbn [fst].
    rewrite Hstale, orb_false_r. reflexivity. }
  repeat split.
  - exact Hres.
  - intros Hlen. rewrite Hres, Hcount, Hlen. reflexivity.
  - intros Hlen. rewrite Hres, Hcount, Hlen. reflexivity.
Qed.

Lemma C4_restart_at_five_failures_witness :
  let self := fetched_at 0 (__init__ hook) in
  let failed n :=
    fold_left (fun b net => bot_of (get_forecast_discussion net 0 b))
              (repeat unavailable n) self in
  result_of (should_restart (seconds 1500) (failed 5%nat)) = Return true
  /\ result_of (should_restart (seconds 1500) (failed 4%nat)) = Return false.
Proof.
  split.
  - apply (C4_restart_at_five_failures
             (fetched_at 0 (__init__ hook)) (seconds 1500)
             (repeat unavailable 5)); reflexivity.
  - apply (C4_restart_at_five_failures
             (fetched_at 0 (__init__ hook)) (seconds 1500)
             (repeat unavailable 4)); reflexivity.
Defined.

(** C8: a round that notifies writes the new fingerprint to [last_hash]
    before its first post and not after: [last_hash] holds another value, or
    none, when the round begins, and holds the new fingerprint at the moment
    of every [requests.post] of the round, of which there is at least one.
    (The traced round, which keeps those moments, is the round itself once
    they are taken off its log.)  So the round is one call of
    [send_discord_message] entered with the fingerprint set, it ends with it
    set whatever becomes of the deliveries, and a later round whose fetch
    returns the same text posts nothing. *)
Theorem C8_fingerprint_is_set_before_the_dispatch (w : cycle) (self : Bot) :
  notified w self ->
  erase (Traced.run_inner_body w self) = run_inner_body w self
  /\ states_at_posts (Traced.run_inner_body w self) <> []
  /\ last_hash self <> Some (fingerprint w)
  /\ Forall (fun at_post => last_hash at_post = Some (fingerprint w))
            (states_at_posts (Traced.run_inner_body w self))
  /\ (exists framing,
         (framing = initial_framing \/ framing = update_framing)
         /\ run_inner_body w self
            = send_discord_message
                (framing ++ strip (region_text (fetch_reply w)))
                (post_reply w)
                (set_last_hash (Some (fingerprint w))
                               (fetched_at (fetch_clock w) self)))
  /\ last_hash (bot_of (run_inner_body w self)) = Some (fingerprint w)
  /\ (forall w',
         strip (region_text (fetch_reply w'))
         = strip (region_text (fetch_reply w)) ->
         sent_of (run_inner_body w' (bot_of (run_inner_body w self))) = []).
Proof.
  intros Hnotified.
  pose proof (traced_round_erases w self) as Herase.
  pose proof (traced_round_states w self Hnotified) as [Hbefore Hat_posts].
  split; [exact Herase|]. split.
  { intros Hnil. apply Hnotified. rewrite <- Herase.
    unfold states_at_posts in Hnil. apply map_eq_nil in Hnil.
    unfold erase, sent_of. cbn [snd]. rewrite Hnil. reflexivity. }
  split; [exact Hbefore|]. split; [exact Hat_posts|].
  clear Herase Hbefore Hat_posts. revert Hnotified.
  unfold notified. intros Hsent.
  assert (Hcall : exists framing,
             (framing = initial_framing \/ framing = update_framing)
             /\ run_inner_body w self
                = send_discord_message
                    (framing ++ strip (region_text (fetch_reply w)))
                    (post_reply w)
                    (set_last_hash (Some (fingerprint w))
                                   (fetched_at (fetch_clock w) self))).
  { rewrite run_inner_body_eq in Hsent |- *. unfold fingerprint.
    destruct (fetch_failed (fetch_reply w)); [exfalso; now apply Hsent|].
    cbv zeta in Hsent |- *.
    destruct (strip (region_text (fetch_reply w))) as [|c content];
      [exfalso; now apply Hsent|].
    destruct (last_hash self) as [last|].
    - destruct (pystr_eqb (calculate_hash (c :: content)) last);
        [exfalso; now apply Hsent|].
      exists update_framing. split; [right|]; reflexivity.
    - exists initial_framing. split; [left|]; reflexivity. }
  assert (Hafter : last_hash (bot_of (run_inner_body w self))
                   = Some (fingerprint w)).
  { destruct Hcall as [framing [_ ->]].
    rewrite send_discord_message_eq. reflexivity. }
  split; [exact Hcall|]. split; [exact Hafter|].
  intros w' Hsame. rewrite run_inner_body_eq.
  destruct (fetch_failed (fetch_reply w')); [reflexivity|].
  cbv zeta. rewrite Hsame.
  destruct (strip (region_text (fetch_reply w))) as [|c content] eqn:Htext;
    [reflexivity|].
  rewrite Hafter. unfold fingerprint. rewrite Htext, pystr_eqb_refl.
  reflexivity.
Qed.

Lemma C8_fingerprint_is_set_before_the_dispatch_witness :
  notified (lost_round 0 (ok_page T1)) (__init__ hook)
  /\ last_hash (__init__ hook) = None
  /\ Forall (fun at_post =>
               last_hash at_post
               = Some (fingerprint (lost_round 0 (ok_page T1))))
            (states_at_posts
               (Traced.run_inner_body (lost_round 0 (ok_page T1))
                                      (__init__ hook)))
  /\ List.length (states_at_posts
                    (Traced.run_inner_body (lost_round 0 (ok_page T1))
                                           (__init__ hook))) = 1%nat
  /\ error_count (bot_of (run_inner_body (lost_round 0 (ok_page T1))
                                         (__init__ hook))) = 1
  /\ sent_of (run_inner_body
                (round 300 (ok_page T1))
                (bot_of (run_inner_body (lost_round 0 (ok_page T1))
                                        (__init__ hook)))) = [].
Proof.
  assert (Hsent : notified (lost_round 0 (ok_page T1)) (__init__ hook))
    by (vm_compute; discriminate).
  destruct (C8_fingerprint_is_set_before_the_dispatch
              (lost_round 0 (ok_page T1)) (__init__ hook) Hsent)
    as [_ [_ [_ [Hat_posts [_ [_ Hnext]]]]]].
  split; [exact Hsent|]. split; [reflexivity|].
  split; [exact Hat_posts|]. split; [vm_compute; reflexivity|].
  split; [vm_compute; reflexivity|].
  apply Hnext. reflexivity.
Defined.

(** Where the sample runs stand. *)

Lemma between_sessions_nil (webhook : pystr) :
  between_sessions webhook [] (__init__ webhook).
Proof. exists []. reflexivity. Qed.

Lemma between_sessions_failing :
  between_sessions hook [failing_session] after_failing_session.
Proof.
  exists (sent_of (run [failing_session] (__init__ hook))).
  vm_compute. reflexivity.
Qed.

(** A new bot about to run the first round of its first session. *)
Lemma in_first_round (webhook : pystr) (t0 : datetime) (w : cycle) :
  0 <= check_clock w - t0 <= seconds 3600 ->
  in_session webhook [] t0 [] w (fetched_at t0 (__init__ webhook)).
Proof.
  intros Hclock. exists (__init__ webhook), [].
  split; [apply between_sessions_nil|]. split; [reflexivity|].
  rewrite should_restart_eq. unfold result_of. cbn [fst].
  rewrite (fresh_within_the_hour _ t0) by (reflexivity || exact Hclock).
  reflexivity.
Qed.

(** The bot about to run the first round of the session that follows
    [failing_session]. *)
Lemma in_second_session :
  in_session hook [failing_session] (seconds 1860) []
             (round 1860 (ok_page T1))
             (fetched_at (seconds 1860) after_failing_session).
Proof.
  exists after_failing_session, [].
  split; [apply between_sessions_failing|].
  split; vm_compute; reflexivity.
Qed.

(** C1, as worded, fails on two runs.  In the first round of a new bot a
    region of white space makes the fetch succeed, the first of its session
    to do so, and nothing is posted.  And after [failing_session] has
    announced [T1] and ended on five failures, the next session's first fetch
    succeeds with [T1] again, and nothing is posted. *)
Lemma C1_counterexample :
  ~ notifies_on_first_or_changed hook [] 0 [] (round 0 (ok_page blank))
  /\ ~ notifies_on_first_or_changed hook [failing_session] (seconds 1860) []
         (round 1860 (ok_page T1)).
Proof.
  split; intros Hclaim.
  - pose proof (Hclaim _ (in_first_round hook 0 (round 0 (ok_page blank))
                            ltac:(vm_compute; split; discriminate)))
      as [_ Hback].
    apply Hback; [left; split; reflexivity|].
    vm_compute. reflexivity.
  - pose proof (Hclaim _ in_second_session) as [_ Hback].
    apply Hback; [left; split; reflexivity|].
    vm_compute. reflexivity.
Qed.

(** C1, amended: a round posts a notification exactly when its fetch succeeds
    with text that is not empty once stripped and [last_hash] is unset or
    differs from the fingerprint of that text. *)
Theorem C1_notified_iff_new_text (w : cycle) (self : Bot) :
  notified w self <->
  fetch_failed (fetch_reply w) = false
  /\ strip (region_text (fetch_reply w)) <> []
  /\ (last_hash self = None
      \/ exists last, last_hash self = Some last /\ last <> fingerprint w).
Proof.
  unfold notified, fingerprint. rewrite run_inner_body_eq.
  destruct (fetch_failed (fetch_reply w)).
  { split; [intros H; now contradiction H|intros [H _]; discriminate]. }
  cbv zeta.
  destruct (strip (region_text (fetch_reply w))) as [|c content].
  { split; [intros H; now contradiction H|intros [_ [H _]]; now contradiction H]. }
  destruct (last_hash self) as [last|].
  - destruct (pystr_eqb (calculate_hash (c :: content)) last) eqn:Heqb.
    + apply pystr_eqb_eq in Heqb. split; [intros H; now contradiction H|].
      intros [_ [_ [H | [last' [Hlast Hneq]]]]]; [discriminate|].
      injection Hlast as <-. congruence.
    + split.
      * intros _. split; [reflexivity|]. split; [discriminate|].
        right. exists last. split; [reflexivity|].
        intros ->. rewrite pystr_eqb_refl in Heqb. discriminate.
      * intros _. apply framed_posts, update_framing_nonempty.
  - split.
    + intros _. split; [reflexivity|]. split; [discriminate|].
      left. reflexivity.
    + intros _. apply framed_posts, initial_framing_nonempty.
Qed.

(** C2, as worded, fails after [failing_session]: the top of the outer loop
    leaves the fingerprint of [T1] on record, and the next session's first
    successful fetch, [T1] again, is not announced.  It fails on content too:
    a new bot's first successful fetch, of white space, is not announced. *)
Lemma C2_counterexample :
  ~ session_clears_fingerprint hook [failing_session] (seconds 1860)
  /\ ~ first_success_announced hook [failing_session] (seconds 1860) []
         (round 1860 (ok_page T1))
  /\ ~ first_success_announced hook [] 0 [] (round 0 (ok_page blank)).
Proof.
  split; [|split]; intros Hclaim.
  - specialize (Hclaim _ between_sessions_failing).
    vm_compute in Hclaim. discriminate.
  - specialize (Hclaim _ in_second_session (conj eq_refl eq_refl)).
    vm_compute in Hclaim. discriminate.
  - specialize (Hclaim _ (in_first_round hook 0 (round 0 (ok_page blank))
                            ltac:(vm_compute; split; discriminate))
                       (conj eq_refl eq_refl)).
    vm_compute in Hclaim. discriminate.
Qed.

(** C2, amended: the top of the outer loop sets the error count to zero and
    the last success to the clock reading, and leaves [last_hash] as it is.
    While [last_hash] is unset, a fetch of text that is not empty once
    stripped is announced once with the initial framing, and sets [last_hash]
    to its fingerprint.  In the first session of a new bot [last_hash] is
    unset until such a fetch. *)
Theorem C2_initial_notice_while_fingerprint_unset :
  (forall t0 self,
      session_start t0 self
      = (Return tt, set_last_success (Some t0) (set_error_count 0 self), [])
      /\ last_hash (bot_of (session_start t0 self)) = last_hash self)
  /\ (forall w self,
         last_hash self = None ->
         quiet w = false ->
         result_of (run_inner_body w self) = Return tt
         /\ sent_of (run_inner_body w self) = announcement initial_framing w
         /\ last_hash (bot_of (run_inner_body w self))
            = Some (fingerprint w))
  /\ (forall webhook t0 ws w self,
         in_session webhook [] t0 ws w self ->
         forallb quiet ws = true ->
         last_hash self = None).
Proof.
  split; [|split].
  - intros t0 self. split; reflexivity.
  - intros w self Hnone Hquiet. unfold quiet in Hquiet.
    apply orb_false_iff in Hquiet as [Hok Htext].
    unfold announcement, fingerprint.
    rewrite run_inner_body_eq, Hok, Hnone. cbv zeta.
    destruct (strip (region_text (fetch_reply w))) as [|c content];
      [discriminate|].
    rewrite send_discord_message_eq. repeat split.
  - intros webhook t0 ws w self [b [log [[log0 Hrun] [Hsession _]]]] Hquiet.
    cbn in Hrun. unfold ret in Hrun. injection Hrun as <- _.
    unfold bind in Hsession. rewrite session_start_eq in Hsession.
    destruct (run_inner ws _) as [[r self'] log'] eqn:Hinner.
    injection Hsession as _ <- _.
    eapply run_inner_quiet; [|exact Hquiet|exact Hinner]. reflexivity.
Qed.

Lemma C2_initial_notice_while_fingerprint_unset_witness :
  last_hash (bot_of (session_start (seconds 1860) after_failing_session))
  = last_hash after_failing_session
  /\ sent_of (run_inner_body (round 600 (ok_page T1))
                             (fetched_at 0 (__init__ hook)))
     = announcement initial_framing (round 600 (ok_page T1))
  /\ last_hash (bot_of ((session_start 0 ;;
                         run_inner [round 0 unavailable;
                                    round 300 (ok_page blank)])
                          (__init__ hook))) = None.
Proof.
  pose proof C2_initial_notice_while_fingerprint_unset
    as [Hstart [Hfirst Hunset]].
  split; [apply Hstart|]. split.
  - apply Hfirst; reflexivity.
  - apply (Hunset hook 0 [round 0 unavailable; round 300 (ok_page blank)]
                  (round 600 (ok_page T1))); [|reflexivity].
    eexists (__init__ hook), _.
    split; [apply between_sessions_nil|].
    split; vm_compute; reflexivity.
Defined.

(** C5, as worded, fails in the first session of a new bot: the top of the
    outer loop has put the clock reading on record as the last success, so
    with no fetch recorded yet [should_restart] answers true 3601 seconds
    later. *)
Lemma C5_counterexample : ~ no_restart_before_first_fetch hook [] 0.
Proof.
  intros Hclaim.
  specialize (Hclaim _ (seconds 3601) (between_sessions_nil hook)).
  vm_compute in Hclaim. discriminate.
Qed.

(** C5, amended: [should_restart] answers false at every time for a bot with
    no success on record, as [__init__] leaves it, and fewer than 5 errors.
    A session does have one on record from its start: the top of the outer
    loop stores the clock reading there, so before any fetch is recorded
    [should_restart] answers false up to 3600 seconds after the start of the
    session, and true from 3601 seconds up to a day after it. *)
Theorem C5_time_test_runs_from_session_start :
  (forall self now,
      last_success self = None ->
      error_count self < 5 ->
      result_of (should_restart now self) = Return false)
  /\ (forall webhook now,
         result_of (should_restart now (__init__ webhook)) = Return false)
  /\ (forall self t0 now,
         let started := bot_of (session_start t0 self) in
         last_success started = Some t0
         /\ error_count started = 0
         /\ (0 <= now - t0 <= seconds 3600 ->
             result_of (should_restart now started) = Return false)
         /\ (seconds 3601 <= now - t0 < seconds 86400 ->
             result_of (should_restart now started) = Return true)).
Proof.
  split; [|split].
  - intros self now Hnone Hfew. rewrite should_restart_eq.
    unfold result_of, stale. cbn [fst]. rewrite Hnone.
    apply Z.leb_gt in Hfew.
    change (5 <=? error_count self) with (Z.leb 5 (error_count self)).
    rewrite Hfew. reflexivity.
  - intros webhook now. reflexivity.
  - intros self t0 now. cbv zeta. repeat split.
    + intros Hclock. rewrite should_restart_eq. unfold result_of. cbn [fst].
      rewrite (fresh_within_the_hour now t0) by (reflexivity || exact Hclock).
      reflexivity.
    + intros Hclock. rewrite should_restart_eq. unfold result_of. cbn [fst].
      rewrite (stale_within_a_day now t0) by (reflexivity || exact Hclock).
      reflexivity.
Qed.

Lemma C5_time_test_runs_from_session_start_witness :
  result_of (should_restart (seconds 999999)
                            (set_error_count 4 (__init__ hook)))
  = Return false
  /\ result_of (should_restart (seconds 3600)
                               (bot_of (session_start 0 (__init__ hook))))
     = Return false
  /\ result_of (should_restart (seconds 3601)
                               (bot_of (session_start 0 (__init__ hook))))
     = Return true.
Proof.
  pose proof C5_time_test_runs_from_session_start as [Hunset [_ Hstarted]].
  split; [apply Hunset; reflexivity|].
  destruct (Hstarted (__init__ hook) 0 (seconds 3600)) as [_ [_ [Hfalse _]]].
  destruct (Hstarted (__init__ hook) 0 (seconds 3601)) as [_ [_ [_ Htrue]]].
  split.
  - apply Hfalse. vm_compute. split; discriminate.
  - apply Htrue. vm_compute. split; [discriminate|reflexivity].
Defined.

(** C3: with a success on record at time 0 and no errors, one day and ten
    seconds later more than 3600 seconds have passed, yet [should_restart]
    answers false: the seconds field of the elapsed time is 10. *)
Theorem C3_a_day_later_no_restart :
  let self := fetched_at 0 (__init__ hook) in
  let now := seconds (86400 + 10) in
  seconds 3600 < now - 0
  /\ td_seconds (now - 0) = 10
  /\ should_restart now self = (Return false, self, []).
Proof. cbv zeta. repeat split. Qed.

(** * Further properties of the code *)

(** ** The loops, one step at a time *)

(** A round returns normally, whatever the network does. *)
Lemma run_inner_body_returns (w : cycle) (self : Bot) :
  result_of (run_inner_body w self) = Return tt.
Proof.
  rewrite run_inner_body_eq.
  destruct (fetch_failed (fetch_reply w)); [reflexivity|]. cbv zeta.
  destruct (strip (region_text (fetch_reply w))) as [|c text];
    [reflexivity|].
  destruct (last_hash self) as [last|].
  - destruct (pystr_eqb _ last); [reflexivity|].
    rewrite send_discord_message_eq. reflexivity.
  - rewrite send_discord_message_eq. reflexivity.
Qed.

Lemma outcome_eta {A} (o : result A * Bot * list Message) :
  o = (result_of o, bot_of o, sent_of o).
Proof. destruct o as [[r b] l]. reflexivity. Qed.

Lemma run_inner_step (w : cycle) (ws : list cycle) (self : Bot) :
  run_inner (w :: ws) self =
  if (5 <=? error_count self) || stale (check_clock w) self
  then (Return true, self, [])
  else
    let first := run_inner_body w self in
    let rest := run_inner ws (bot_of first) in
    (result_of rest, bot_of rest, sent_of first ++ sent_of rest).
Proof.
  rewrite run_inner_cons.
  destruct ((5 <=? error_count self) || stale (check_clock w) self);
    [reflexivity|].
  cbv zeta. unfold bind.
  rewrite (outcome_eta (run_inner_body w self)), run_inner_body_returns.
  rewrite (outcome_eta (run_inner ws _)). reflexivity.
Qed.

Lemma run_inner_returns (ws : list cycle) :
  forall self, exists ended, result_of (run_inner ws self) = Return ended.
Proof.
  induction ws as [|w ws IH]; intros self.
  - exists false. reflexivity.
  - rewrite run_inner_step.
    destruct ((5 <=? error_count self) || stale (check_clock w) self).
    + exists true. reflexivity.
    + cbv zeta. apply IH.
Qed.

Lemma run_step (s : session) (ss : list session) (self : Bot) :
  run (s :: ss) self =
  let session := run_inner (cycles s) (started_at (start_clock s) self) in
  match result_of session with
  | Return true =>
      let rest := run ss (bot_of session) in
      (result_of rest, bot_of rest, sent_of session ++ sent_of rest)
  | _ => (Return false, bot_of session, sent_of session)
  end.
Proof.
  cbv zeta. cbn [run]. unfold bind, try_except.
  rewrite session_start_eq. fold (started_at (start_clock s) self).
  destruct (run_inner_returns (cycles s) (started_at (start_clock s) self))
    as [ended Hended].
  rewrite (outcome_eta (run_inner (cycles s) _)), Hended.
  cbn [app result_of bot_of sent_of fst snd].
  destruct ended.
  - rewrite (outcome_eta (run ss _)). reflexivity.
  - unfold ret. rewrite app_nil_r. reflexivity.
Qed.

Lemma run_returns (ss : list session) :
  forall self, exists ended, result_of (run ss self) = Return ended.
Proof.
  induction ss as [|s ss IH]; intros self.
  - exists true. reflexivity.
  - rewrite run_step. cbv zeta.
    destruct (run_inner_returns (cycles s) (started_at (start_clock s) self))
      as [[] ->].
    + apply IH.
    + exists false. reflexivity.
Qed.

(** What holds of the bot before a loop and is kept by every round holds of
    it after the loop. *)
Lemma run_inner_invariant (I : Bot -> Prop) :
  (forall w self, I self -> I (bot_of (run_inner_body w self))) ->
  forall ws self, I self -> I (bot_of (run_inner ws self)).
Proof.
  intros Hbody. induction ws as [|w ws IH]; intros self Hself.
  - exact Hself.
  - rewrite run_inner_step.
    destruct ((5 <=? error_count self) || stale (check_clock w) self);
      [exact Hself|].
    cbv zeta. apply IH, Hbody, Hself.
Qed.

Lemma run_invariant (I : Bot -> Prop) :
  (forall w self, I self -> I (bot_of (run_inner_body w self))) ->
  (forall t0 self, I self -> I (started_at t0 self)) ->
  forall ss self, I self -> I (bot_of (run ss self)).
Proof.
  intros Hbody Hstart. induction ss as [|s ss IH]; intros self Hself.
  - exact Hself.
  - rewrite run_step. cbv zeta.
    assert (Hsession : I (bot_of (run_inner (cycles s)
                                    (started_at (start_clock s) self))))
      by (apply run_inner_invariant; [exact Hbody|apply Hstart, Hself]).
    destruct (result_of (run_inner (cycles s) _)) as [[]|e].
    + apply IH, Hsession.
    + exact Hsession.
    + exact Hsession.
Qed.

(** What holds of every message of a notification holds of every message of a
    run. *)
Lemma run_inner_body_sent (P : Message -> Prop) :
  (forall text, Forall P (map wrap (chunks text))) ->
  forall w self, Forall P (sent_of (run_inner_body w self)).
Proof.
  intros Hsend w self. rewrite run_inner_body_eq.
  destruct (fetch_failed (fetch_reply w)); [constructor|]. cbv zeta.
  destruct (strip (region_text (fetch_reply w))) as [|c text];
    [constructor|].
  destruct (last_hash self) as [last|].
  - destruct (pystr_eqb _ last); [constructor|].
    rewrite send_discord_message_eq. apply Hsend.
  - rewrite send_discord_message_eq. apply Hsend.
Qed.

Lemma run_inner_sent (P : Message -> Prop) :
  (forall text, Forall P (map wrap (chunks text))) ->
  forall ws self, Forall P (sent_of (run_inner ws self)).
Proof.
  intros Hsend. induction ws as [|w ws IH]; intros self.
  - constructor.
  - rewrite run_inner_step.
    destruct ((5 <=? error_count self) || stale (check_clock w) self);
      [constructor|].
    cbv zeta. apply Forall_app. split; [|apply IH].
    apply run_inner_body_sent, Hsend.
Qed.

Lemma run_sent (P : Message -> Prop) :
  (forall text, Forall P (map wrap (chunks text))) ->
  forall ss self, Forall P (sent_of (run ss self)).
Proof.
  intros Hsend. induction ss as [|s ss IH]; intros self.
  - constructor.
  - rewrite run_step. cbv zeta.
    pose proof (run_inner_sent P Hsend (cycles s)
                  (started_at (start_clock s) self)) as Hsession.
    destruct (result_of (run_inner (cycles s) _)) as [[]|e];
      try exact Hsession.
    apply Forall_app. split; [exact Hsession|apply IH].
Qed.

(** ** The pieces of a notification *)

Lemma chunks_piece_length (text : pystr) (k : nat) :
  (k < List.length (chunks text))%nat ->
  (1900 * k < List.length text)%nat
  /\ List.length (nth k (chunks text) [])
     = Nat.min 1900 (List.length text - 1900 * k).
Proof.
  intros Hk. pose proof (chunks_count text) as [_ Hhi].
  split; [lia|].
  rewrite chunks_nth by exact Hk.
  rewrite length_firstn, length_skipn. reflexivity.
Qed.

(** X1: no piece of a text is empty, every piece but the last has exactly
    1900 characters, and the last has what is left. *)
Theorem chunks_are_full_but_the_last (text : pystr) (k : nat) :
  let n := List.length (chunks text) in
  let piece := nth k (chunks text) [] in
  (k < n)%nat ->
  piece <> []
  /\ (S k < n -> List.length piece = 1900)%nat
  /\ (S k = n ->
      List.length piece = List.length text - 1900 * k)%nat.
Proof.
  cbv zeta. intros Hk.
  pose proof (chunks_piece_length text k Hk) as [Hin Hlen].
  pose proof (chunks_count text) as [Hlo Hhi].
  split; [|split].
  - intros Hnil. rewrite Hnil in Hlen. cbn [List.length] in Hlen. lia.
  - intros Hnext.
    pose proof (chunks_piece_length text (S k) Hnext) as [Hin' _]. lia.
  - intros Hlast. lia.
Qed.

Lemma chunks_are_full_but_the_last_witness :
  List.length (nth 1 (chunks (repeat (ascii_of_nat 97) 5000)) []) = 1900%nat
  /\ List.length (nth 2 (chunks (repeat (ascii_of_nat 97) 5000)) [])
     = 1200%nat.
Proof.
  assert (Hn : List.length (chunks (repeat (ascii_of_nat 97) 5000)) = 3%nat)
    by (vm_compute; reflexivity).
  split.
  - apply (chunks_are_full_but_the_last (repeat (ascii_of_nat 97) 5000) 1);
      rewrite Hn; lia.
  - pose proof (chunks_are_full_but_the_last
                  (repeat (ascii_of_nat 97) 5000) 2) as H.
    cbv zeta in H. rewrite Hn in H.
    destruct (H ltac:(lia)) as [_ [_ Hlast]].
    rewrite (Hlast eq_refl), repeat_length. reflexivity.
Defined.

Lemma chunks_pieces_bounded (text : pystr) :
  Forall (fun piece => (1 <= List.length piece <= 1900)%nat) (chunks text).
Proof.
  apply Forall_forall. intros piece Hin.
  destruct (In_nth _ _ [] Hin) as [k [Hk <-]].
  pose proof (chunks_piece_length text k Hk) as [Hpos Hlen].
  unfold pystr in *. lia.
Qed.

Lemma wrap_length (piece : pystr) :
  List.length (content (wrap piece)) = (List.length piece + 6)%nat.
Proof.
  unfold wrap. cbn [content]. rewrite !length_app.
  change (List.length backticks) with 3%nat. lia.
Qed.

Lemma wrapped_chunks_fit (text : pystr) :
  Forall (fun m => (7 <= List.length (content m) <= 1906)%nat
                   /\ username m = bot_name)
         (map wrap (chunks text)).
Proof.
  apply Forall_map.
  eapply Forall_impl; [|apply chunks_pieces_bounded].
  intros piece Hpiece. cbv beta in *. rewrite wrap_length.
  unfold pystr in *. split; [lia|reflexivity].
Qed.

(** X2: every message that a run posts, over all its sessions and rounds,
    carries between 7 and 1906 characters, so it is neither empty nor over
    the 2000 characters the webhook takes, and is signed with the bot's
    name. *)
Theorem run_posts_fit_the_limit (ss : list session) (self : Bot) :
  Forall (fun m => (7 <= List.length (content m) <= 1906)%nat
                   /\ (List.length (content m) < 2000)%nat
                   /\ username m = bot_name)
         (sent_of (run ss self)).
Proof.
  eapply Forall_impl; [|apply (run_sent _ wrapped_chunks_fit)].
  intros m [Hlen Hname]. cbv beta. repeat split; try lia. exact Hname.
Qed.

(** ** Blank regions *)

Lemma lstrip_nil_iff (s : pystr) :
  lstrip s = [] <-> forallb is_space s = true.
Proof.
  induction s as [|c s IH]; cbn [lstrip forallb].
  - split; reflexivity.
  - destruct (is_space c); cbn [andb]; [exact IH|].
    split; discriminate.
Qed.

Lemma forallb_rev {A} (f : A -> bool) (l : list A) :
  forallb f (rev l) = forallb f l.
Proof.
  induction l as [|x l IH]; [reflexivity|].
  cbn [rev forallb]. rewrite forallb_app, IH. cbn [forallb].
  rewrite andb_true_r. apply andb_comm.
Qed.

Lemma strip_nil_iff (s : pystr) :
  strip s = [] <-> forallb is_space s = true.
Proof.
  unfold strip, rstrip. split.
  - intros Hnil. apply (f_equal (@rev ascii)) in Hnil.
    rewrite rev_involutive in Hnil. cbn [rev] in Hnil.
    apply lstrip_nil_iff in Hnil. rewrite forallb_rev in Hnil.
    destruct (lstrip s) as [|c rest] eqn:Hs.
    + apply lstrip_nil_iff, Hs.
    + cbn [forallb] in Hnil. rewrite (lstrip_head s c rest Hs) in Hnil.
      discriminate.
  - intros Hall. apply lstrip_nil_iff in Hall. rewrite Hall. reflexivity.
Qed.

(** X3: a fetch that succeeds returns the empty string exactly when the
    region holds nothing but white space. *)
Theorem fetch_is_blank_iff_region_is_white_space
        (net : reply page) (now : datetime) (self : Bot) :
  fetch_failed net = false ->
  (result_of (get_forecast_discussion net now self) = Return (Some [])
   <-> forallb is_space (region_text net) = true).
Proof.
  intros Hok. rewrite get_forecast_discussion_eq, Hok.
  unfold result_of. cbn [fst]. rewrite <- strip_nil_iff. split.
  - intros H. injection H as H. exact H.
  - intros ->. reflexivity.
Qed.

Lemma fetch_is_blank_iff_region_is_white_space_witness :
  result_of (get_forecast_discussion (ok_page blank) 0 (__init__ hook))
  = Return (Some []).
Proof.
  apply (fetch_is_blank_iff_region_is_white_space
           (ok_page blank) 0 (__init__ hook)); reflexivity.
Defined.

(** ** The shape of a fingerprint *)

Lemma le_bytes_length (n : nat) :
  forall x, List.length (MD5.le_bytes n x) = n.
Proof.
  induction n as [|n IH]; intros x; cbn [MD5.le_bytes List.length];
    [reflexivity|]. rewrite IH. reflexivity.
Qed.

Lemma le_bytes_are_bytes (n : nat) :
  forall x, Forall (fun b => 0 <= b < 256) (MD5.le_bytes n x).
Proof.
  induction n as [|n IH]; intros x; cbn [MD5.le_bytes]; constructor.
  - apply Z.mod_pos_bound. lia.
  - apply IH.
Qed.

Lemma digest_length (msg : list Z) : List.length (MD5.digest msg) = 16%nat.
Proof.
  unfold MD5.digest. cbv zeta. rewrite !length_app, !le_bytes_length.
  reflexivity.
Qed.

Lemma digest_is_bytes (msg : list Z) :
  Forall (fun b => 0 <= b < 256) (MD5.digest msg).
Proof.
  unfold MD5.digest. cbv zeta.
  repeat (apply Forall_app; split); apply le_bytes_are_bytes.
Qed.

Lemma hex_digits_cover :
  Forall (fun k => In (MD5.hex_digit (Z.of_nat k)) hex_digits) (seq 0 16).
Proof.
  repeat (apply Forall_cons;
          [vm_compute; solve [repeat ((left; reflexivity) || right)]|]).
  apply Forall_nil.
Qed.

Lemma hex_digit_is_hex (n : Z) :
  0 <= n < 16 -> In (MD5.hex_digit n) hex_digits.
Proof.
  intros Hn. rewrite <- (Z2Nat.id n) by lia.
  apply (proj1 (Forall_forall _ _) hex_digits_cover).
  apply in_seq. lia.
Qed.

Lemma hex_pairs_length (bs : list Z) :
  List.length
    (flat_map (fun b => [MD5.hex_digit (b / 16); MD5.hex_digit (b mod 16)])
              bs)
  = (2 * List.length bs)%nat.
Proof.
  induction bs as [|b bs IH]; [reflexivity|].
  cbn [flat_map app List.length]. rewrite IH. lia.
Qed.

Lemma hex_pairs_are_hex (bs : list Z) :
  Forall (fun b => 0 <= b < 256) bs ->
  Forall (fun c => In c hex_digits)
    (flat_map (fun b => [MD5.hex_digit (b / 16); MD5.hex_digit (b mod 16)])
              bs).
Proof.
  induction 1 as [|b bs Hb _ IH]; cbn [flat_map app]; [constructor|].
  constructor; [|constructor; [|exact IH]].
  - apply hex_digit_is_hex. split.
    + apply Z.div_pos; lia.
    + apply Z.div_lt_upper_bound; lia.
  - apply hex_digit_is_hex, Z.mod_pos_bound. lia.
Qed.

(** X4: a fingerprint is 32 characters long, each one of
    [0123456789abcdef]. *)
Theorem calculate_hash_is_32_hex_digits (text : pystr) :
  List.length (calculate_hash text) = 32%nat
  /\ Forall (fun c => In c hex_digits) (calculate_hash text).
Proof.
  unfold calculate_hash, MD5.hexdigest. split.
  - rewrite hex_pairs_length, digest_length. reflexivity.
  - apply hex_pairs_are_hex, digest_is_bytes.
Qed.

(** ** The time test *)

Lemma td_seconds_plus_days (td : timedelta) (days : Z) :
  td_seconds (td + seconds (86400 * days)) = td_seconds td.
Proof.
  unfold td_seconds, seconds.
  rewrite Z.div_add by discriminate.
  rewrite (Z.mul_comm 86400 days), Z.mod_add by discriminate.
  reflexivity.
Qed.

(** X5: [should_restart] tells no difference between two clock readings that
    are whole days apart: its time test looks at the seconds field of the
    elapsed time only. *)
Theorem should_restart_forgets_whole_days
        (now : datetime) (days : Z) (self : Bot) :
  should_restart (now + seconds (86400 * days)) self
  = should_restart now self.
Proof.
  rewrite !should_restart_eq. unfold stale.
  destruct (last_success self) as [t|]; [|reflexivity].
  replace (now + seconds (86400 * days) - t)
    with (now - t + seconds (86400 * days)) by lia.
  rewrite td_seconds_plus_days. reflexivity.
Qed.

(** X6: when the clock reads earlier than the last success on record, by
    anything up to 82799 seconds, [should_restart] answers true. *)
Theorem should_restart_when_clock_steps_back
        (now t : datetime) (self : Bot) :
  last_success self = Some t ->
  seconds (-82799) <= now - t < 0 ->
  should_restart now self = (Return true, self, []).
Proof.
  intros Hlast [Hlo Hhi]. rewrite should_restart_eq.
  assert (Hstale : stale now self = true).
  { unfold stale, td_seconds, seconds in *. rewrite Hlast.
    apply Z.ltb_lt.
    assert (-82799 <= (now - t) / 1000000)
      by (apply Z.div_le_lower_bound; lia).
    assert ((now - t) / 1000000 < 0)
      by (apply Z.div_lt_upper_bound; lia).
    rewrite <- (Z.mod_add _ 1 86400) by discriminate.
    rewrite Z.mod_small; lia. }
  rewrite Hstale, orb_true_r. reflexivity.
Qed.

Lemma should_restart_when_clock_steps_back_witness :
  should_restart (seconds 7200 - seconds 3600)
                 (fetched_at (seconds 7200 + 500000) (__init__ hook))
  = (Return true, fetched_at (seconds 7200 + 500000) (__init__ hook), []).
Proof.
  apply (should_restart_when_clock_steps_back
           (seconds 7200 - seconds 3600) (seconds 7200 + 500000)).
  - reflexivity.
  - vm_compute. split; [discriminate|reflexivity].
Defined.

(** ** How a session ends *)

Lemma run_inner_stops (w : cycle) (ws : list cycle) (self : Bot) :
  5 <= error_count self ->
  run_inner (w :: ws) self = (Return true, self, []).
Proof.
  intros Hfive. rewrite run_inner_step.
  apply Z.leb_le in Hfive. rewrite Hfive. reflexivity.
Qed.

(** Failed fetches, while the count stays under 5 and the time test does not
    fire, are gone through without a post. *)
Lemma run_inner_failed_fetches (ws rest : list cycle) :
  forall self,
    Forall (fun w => fetch_failed (fetch_reply w) = true
                     /\ stale (check_clock w) self = false) ws ->
    error_count self + Z.of_nat (List.length ws) <= 5 ->
    run_inner (ws ++ rest) self
    = run_inner rest
        (set_error_count (error_count self + Z.of_nat (List.length ws)) self).
Proof.
  induction ws as [|w ws IH]; intros self Hall Hfew.
  - cbn [app List.length Z.of_nat].
    rewrite Z.add_0_r, set_error_count_same. reflexivity.
  - inversion Hall as [|w' ws' [Hfail Hfresh] Hrest]; subst.
    cbn [app]. rewrite run_inner_cons, Hfresh, orb_false_r.
    cbn [List.length] in *. rewrite Nat2Z.inj_succ in *.
    assert (Hnot : (5 <=? error_count self) = false)
      by (apply Z.leb_gt; lia).
    rewrite Hnot.
    assert (Hbody : run_inner_body w self
                    = (Return tt,
                       set_error_count (error_count self + 1) self, []))
      by (rewrite run_inner_body_eq, Hfail; reflexivity).
    rewrite (bind_quiet _ _ _ _ _ Hbody), IH.
    + unfold set_error_count.
      cbn [error_count webhook_url last_hash last_success].
      do 2 f_equal. lia.
    + eapply Forall_impl; [|exact Hrest].
      intros w0 [Hf Hs]. split; [exact Hf|exact Hs].
    + cbn [error_count set_error_count]. lia.
Qed.

(** X7: in a session with no error on record, five failed fetches in a row
    end the loop at the sixth check, with nothing posted, five errors on
    record, and the rounds that follow never run. *)
Theorem five_failed_fetches_end_the_session
        (ws : list cycle) (w : cycle) (rest : list cycle) (self : Bot) :
  error_count self = 0 ->
  List.length ws = 5%nat ->
  Forall (fun w => fetch_failed (fetch_reply w) = true
                   /\ stale (check_clock w) self = false) ws ->
  run_inner (ws ++ w :: rest) self
  = (Return true, set_error_count 5 self, []).
Proof.
  intros Hzero Hfive Hall.
  rewrite (run_inner_failed_fetches ws (w :: rest) self Hall)
    by (rewrite Hzero, Hfive; reflexivity).
  rewrite Hzero, Hfive. apply run_inner_stops. reflexivity.
Qed.

Lemma five_failed_fetches_end_the_session_witness :
  run_inner [round 300 unavailable; round 600 unavailable;
             round 900 unavailable; round 1200 unavailable;
             round 1500 unavailable; round 1800 (ok_page T2)]
            (set_last_hash (Some (calculate_hash T1))
                           (fetched_at 500000 (__init__ hook)))
  = (Return true,
     set_error_count 5
       (set_last_hash (Some (calculate_hash T1))
                      (fetched_at 500000 (__init__ hook))), []).
Proof.
  apply (five_failed_fetches_end_the_session
           [round 300 unavailable; round 600 unavailable;
            round 900 unavailable; round 1200 unavailable;
            round 1500 unavailable]
           (round 1800 (ok_page T2)) []).
  - reflexivity.
  - reflexivity.
  - repeat constructor.
Defined.

(** A round that notifies is one call of [send_discord_message], entered
    with the fetch on record and the new fingerprint set. *)
Lemma notifying_round (w : cycle) (self : Bot) :
  notified w self ->
  exists framing,
    run_inner_body w self
    = send_discord_message
        (framing ++ strip (region_text (fetch_reply w))) (post_reply w)
        (set_last_hash (Some (fingerprint w))
                       (fetched_at (fetch_clock w) self)).
Proof.
  unfold notified, fingerprint. rewrite run_inner_body_eq.
  destruct (fetch_failed (fetch_reply w));
    [intros H; now contradiction H|]. cbv zeta.
  destruct (strip (region_text (fetch_reply w))) as [|c text];
    [intros H; now contradiction H|].
  destruct (last_hash self) as [last|].
  - destruct (pystr_eqb _ last); [intros H; now contradiction H|].
    intros _. exists update_framing. reflexivity.
  - intros _. exists initial_framing. reflexivity.
Qed.

(** X8: after a round that notifies, the error count is the number of
    deliveries of that round that failed, the fetch having set it to zero;
    when five or more failed, the next check ends the session. *)
Theorem failed_deliveries_end_the_session (w : cycle) (self : Bot) :
  notified w self ->
  let out := run_inner_body w self in
  error_count (bot_of out)
  = failures (post_reply w) 0 (List.length (sent_of out))
  /\ (5 <= failures (post_reply w) 0 (List.length (sent_of out)) ->
      forall w' rest,
        run_inner (w' :: rest) (bot_of out)
        = (Return true, bot_of out, [])).
Proof.
  intros Hsent. cbv zeta.
  destruct (notifying_round w self Hsent) as [framing Hcall].
  assert (Hcount : error_count (bot_of (run_inner_body w self))
                   = failures (post_reply w) 0
                       (List.length (sent_of (run_inner_body w self)))).
  { rewrite Hcall, send_discord_message_eq.
    unfold bot_of, sent_of. cbn [fst snd]. rewrite length_map.
    reflexivity. }
  split; [exact Hcount|].
  intros Hfive w' rest. apply run_inner_stops. rewrite Hcount. exact Hfive.
Qed.

Lemma failed_deliveries_end_the_session_witness :
  error_count (bot_of (run_inner_body (lost_round 0 (ok_page long_text))
                                      (__init__ hook))) = 5
  /\ run_inner [round 300 (ok_page T1)]
               (bot_of (run_inner_body (lost_round 0 (ok_page long_text))
                                       (__init__ hook)))
     = (Return true,
        bot_of (run_inner_body (lost_round 0 (ok_page long_text))
                               (__init__ hook)), []).
Proof.
  assert (Hsent : notified (lost_round 0 (ok_page long_text))
                           (__init__ hook))
    by (vm_compute; discriminate).
  destruct (failed_deliveries_end_the_session _ _ Hsent) as [Hcount Hstop].
  split.
  - rewrite Hcount. vm_compute. reflexivity.
  - apply Hstop. vm_compute. discriminate.
Defined.

(** X9: whatever the network does, a round, a session and a whole run return
    normally: every exception of a fetch or a delivery is absorbed on the
    way. *)
Theorem run_never_raises :
  (forall w self, result_of (run_inner_body w self) = Return tt)
  /\ (forall ws self,
         exists ended, result_of (run_inner ws self) = Return ended)
  /\ (forall ss self,
         exists ended, result_of (run ss self) = Return ended).
Proof.
  split; [exact run_inner_body_returns|].
  split; [exact run_inner_returns|exact run_returns].
Qed.

(** X10: [__main__] builds one bot and no second: its [except] branch is
    never entered, since the run of the first bot does not raise. *)
Theorem main_keeps_its_first_bot
        (webhook : pystr) (ss : list session) (rs : list (list session)) :
  main webhook (ss :: rs) = [run ss (__init__ webhook)].
Proof.
  cbn [main]. cbv zeta.
  destruct (run_returns ss (__init__ webhook)) as [ended ->]. reflexivity.
Qed.

(** ** Invariants of a run *)

Lemma failures_nonneg (net : nat -> reply unit) (i n : nat) :
  0 <= failures net i n.
Proof. unfold failures. lia. Qed.

Lemma run_inner_body_keeps_count_nonneg (w : cycle) (self : Bot) :
  0 <= error_count self ->
  0 <= error_count (bot_of (run_inner_body w self)).
Proof.
  intros Hself. rewrite run_inner_body_eq.
  destruct (fetch_failed (fetch_reply w)).
  { unfold bot_of. cbn [fst snd error_count set_error_count]. lia. }
  cbv zeta.
  destruct (strip (region_text (fetch_reply w))) as [|c text].
  { unfold bot_of. cbn. lia. }
  destruct (last_hash self) as [last|].
  - destruct (pystr_eqb _ last); [unfold bot_of; cbn; lia|].
    rewrite send_discord_message_eq. unfold bot_of.
    cbn [fst snd error_count set_error_count set_last_hash fetched_at
         set_last_success].
    pose proof (failures_nonneg (post_reply w) 0
                  (List.length (chunks (update_framing ++ c :: text)))).
    lia.
  - rewrite send_discord_message_eq. unfold bot_of.
    cbn [fst snd error_count set_error_count set_last_hash fetched_at
         set_last_success].
    pose proof (failures_nonneg (post_reply w) 0
                  (List.length (chunks (initial_framing ++ c :: text)))).
    lia.
Qed.

Lemma run_inner_body_keeps_webhook (url : pystr) (w : cycle) (self : Bot) :
  webhook_url self = url ->
  webhook_url (bot_of (run_inner_body w self)) = url.
Proof.
  intros Hself. rewrite run_inner_body_eq.
  destruct (fetch_failed (fetch_reply w)); [exact Hself|]. cbv zeta.
  destruct (strip (region_text (fetch_reply w))) as [|c text];
    [exact Hself|].
  destruct (last_hash self) as [last|].
  - destruct (pystr_eqb _ last); [exact Hself|].
    rewrite send_discord_message_eq. exact Hself.
  - rewrite send_discord_message_eq. exact Hself.
Qed.

(** X11: through any run of a new bot the error count is never negative and
    the webhook address stays the one the bot was built with. *)
Theorem run_keeps_count_nonneg_and_webhook
        (webhook : pystr) (ss : list session) :
  0 <= error_count (bot_of (run ss (__init__ webhook)))
  /\ webhook_url (bot_of (run ss (__init__ webhook))) = webhook.
Proof.
  split.
  - apply (run_invariant (fun b => 0 <= error_count b)).
    + exact run_inner_body_keeps_count_nonneg.
    + intros t0 self _. cbn. lia.
    + cbn. lia.
  - apply (run_invariant (fun b => webhook_url b = webhook)).
    + exact (run_inner_body_keeps_webhook webhook).
    + intros t0 self Hself. exact Hself.
    + reflexivity.
Qed.

(** ** What a run posts *)

(** With a fingerprint on record a round posts nothing or one update, and
    keeps a fingerprint on record. *)
Lemma round_with_fingerprint (w : cycle) (self : Bot) :
  last_hash self <> None ->
  (sent_of (run_inner_body w self) = []
   \/ sent_of (run_inner_body w self) = announcement update_framing w)
  /\ last_hash (bot_of (run_inner_body w self)) <> None.
Proof.
  intros Hset. unfold announcement. rewrite run_inner_body_eq.
  destruct (fetch_failed (fetch_reply w)); [split; [left|]; easy|].
  cbv zeta.
  destruct (strip (region_text (fetch_reply w))) as [|c text];
    [split; [left|]; easy|].
  destruct (last_hash self) as [last|] eqn:Hlast; [|congruence].
  destruct (pystr_eqb _ last).
  - split; [left; reflexivity|].
    unfold bot_of. cbn. rewrite Hlast. discriminate.
  - rewrite send_discord_message_eq. split; [right; reflexivity|].
    discriminate.
Qed.

(** With none on record a round posts nothing and leaves none, or posts the
    one initial notice and leaves one. *)
Lemma round_without_fingerprint (w : cycle) (self : Bot) :
  last_hash self = None ->
  (sent_of (run_inner_body w self) = []
   /\ last_hash (bot_of (run_inner_body w self)) = None)
  \/ (sent_of (run_inner_body w self) = announcement initial_framing w
      /\ last_hash (bot_of (run_inner_body w self)) <> None).
Proof.
  intros Hnone. unfold announcement. rewrite run_inner_body_eq, Hnone.
  destruct (fetch_failed (fetch_reply w)); [left; split; easy|].
  cbv zeta.
  destruct (strip (region_text (fetch_reply w))) as [|c text];
    [left; split; easy|].
  rewrite send_discord_message_eq. right. split; [reflexivity|discriminate].
Qed.

Lemma run_inner_updates (ws : list cycle) :
  forall self,
    last_hash self <> None ->
    exists updated,
      incl updated ws
      /\ sent_of (run_inner ws self)
         = flat_map (announcement update_framing) updated
      /\ last_hash (bot_of (run_inner ws self)) <> None.
Proof.
  induction ws as [|w ws IH]; intros self Hset.
  - exists []. repeat split; [apply incl_nil_l|exact Hset].
  - rewrite run_inner_step.
    destruct ((5 <=? error_count self) || stale (check_clock w) self).
    { exists []. repeat split; [apply incl_nil_l|exact Hset]. }
    cbv zeta.
    destruct (round_with_fingerprint w self Hset) as [Hsent Hafter].
    destruct (IH _ Hafter) as [updated [Hincl [Hrest Hlast]]].
    unfold sent_of at 1, bot_of at 1. cbn [fst snd].
    destruct Hsent as [-> | ->].
    + exists updated. split; [apply incl_tl, Hincl|].
      split; [exact Hrest|exact Hlast].
    + exists (w :: updated). split.
      * apply incl_cons; [left; reflexivity|apply incl_tl, Hincl].
      * split; [|exact Hlast]. cbn [flat_map]. rewrite Hrest. reflexivity.
Qed.

Lemma run_inner_first_notice (ws : list cycle) :
  forall self,
    last_hash self = None ->
    (sent_of (run_inner ws self) = []
     /\ last_hash (bot_of (run_inner ws self)) = None)
    \/ exists first updated,
        In first ws /\ incl updated ws
        /\ sent_of (run_inner ws self)
           = announcement initial_framing first
             ++ flat_map (announcement update_framing) updated
        /\ last_hash (bot_of (run_inner ws self)) <> None.
Proof.
  induction ws as [|w ws IH]; intros self Hnone.
  - left. split; [reflexivity|exact Hnone].
  - rewrite run_inner_step.
    destruct ((5 <=? error_count self) || stale (check_clock w) self).
    { left. split; [reflexivity|exact Hnone]. }
    cbv zeta. unfold sent_of at 1 3, bot_of at 1 2. cbn [fst snd].
    destruct (round_without_fingerprint w self Hnone)
      as [[-> Hafter] | [-> Hafter]].
    + destruct (IH _ Hafter)
        as [[Hrest Hlast] | [first [updated [Hin [Hincl [Hrest Hlast]]]]]].
      * left. split; [exact Hrest|exact Hlast].
      * right. exists first, updated.
        split; [right; exact Hin|]. split; [apply incl_tl, Hincl|].
        split; [exact Hrest|exact Hlast].
    + destruct (run_inner_updates ws _ Hafter)
        as [updated [Hincl [Hrest Hlast]]].
      right. exists w, updated.
      split; [left; reflexivity|]. split; [apply incl_tl, Hincl|].
      split; [rewrite Hrest; reflexivity|exact Hlast].
Qed.

Lemma rounds_of_cons (s : session) (ss : list session) :
  rounds_of (s :: ss) = cycles s ++ rounds_of ss.
Proof. reflexivity. Qed.

Lemma run_updates (ss : list session) :
  forall self,
    last_hash self <> None ->
    exists updated,
      incl updated (rounds_of ss)
      /\ sent_of (run ss self)
         = flat_map (announcement update_framing) updated
      /\ last_hash (bot_of (run ss self)) <> None.
Proof.
  induction ss as [|s ss IH]; intros self Hset.
  - exists []. repeat split; [apply incl_nil_l|exact Hset].
  - rewrite run_step, rounds_of_cons. cbv zeta.
    destruct (run_inner_updates (cycles s) (started_at (start_clock s) self)
                                Hset)
      as [updated [Hincl [Hsent Hlast]]].
    destruct (result_of (run_inner (cycles s) _)) as [[]|e].
    + destruct (IH _ Hlast) as [updated' [Hincl' [Hsent' Hlast']]].
      exists (updated ++ updated'). split.
      * apply incl_app; [apply incl_appl, Hincl|apply incl_appr, Hincl'].
      * split; [|exact Hlast'].
        unfold sent_of at 1. cbn [snd].
        rewrite flat_map_app, Hsent, Hsent'. reflexivity.
    + exists updated. split; [apply incl_appl, Hincl|].
      split; [exact Hsent|exact Hlast].
    + exists updated. split; [apply incl_appl, Hincl|].
      split; [exact Hsent|exact Hlast].
Qed.

Lemma run_first_notice (ss : list session) :
  forall self,
    last_hash self = None ->
    (sent_of (run ss self) = [] /\ last_hash (bot_of (run ss self)) = None)
    \/ exists first updated,
        In first (rounds_of ss) /\ incl updated (rounds_of ss)
        /\ sent_of (run ss self)
           = announcement initial_framing first
             ++ flat_map (announcement update_framing) updated
        /\ last_hash (bot_of (run ss self)) <> None.
Proof.
  induction ss as [|s ss IH]; intros self Hnone.
  - left. split; [reflexivity|exact Hnone].
  - rewrite run_step, rounds_of_cons. cbv zeta.
    destruct (run_inner_first_notice (cycles s)
                (started_at (start_clock s) self) Hnone)
      as [[Hsent Hlast] | [first [updated [Hin [Hincl [Hsent Hlast]]]]]].
    + destruct (result_of (run_inner (cycles s) _)) as [[]|e];
        try (left; split; [exact Hsent|exact Hlast]).
      unfold sent_of at 1 3, bot_of at 1 3. cbn [fst snd]. rewrite Hsent.
      destruct (IH _ Hlast)
        as [[Hsent' Hlast']
           | [first [updated [Hin [Hincl [Hsent' Hlast']]]]]].
      * left. split; [exact Hsent'|exact Hlast'].
      * right. exists first, updated.
        split; [apply in_or_app; right; exact Hin|].
        split; [apply incl_appr, Hincl|].
        split; [exact Hsent'|exact Hlast'].
    + assert (Hhere : In first (cycles s ++ rounds_of ss))
        by (apply in_or_app; left; exact Hin).
      destruct (result_of (run_inner (cycles s) _)) as [[]|e];
        try (right; exists first, updated;
             split; [exact Hhere|]; split; [apply incl_appl, Hincl|];
             split; [exact Hsent|exact Hlast]).
      destruct (run_updates ss _ Hlast)
        as [updated' [Hincl' [Hsent' Hlast']]].
      right. exists first, (updated ++ updated').
      split; [exact Hhere|]. split.
      * apply incl_app; [apply incl_appl, Hincl|apply incl_appr, Hincl'].
      * split; [|exact Hlast'].
        unfold sent_of at 1. cbn [snd].
        rewrite flat_map_app, Hsent, Hsent', app_assoc. reflexivity.
Qed.

(** X12: over all the sessions of a run, a new bot posts either nothing, and
    then has no fingerprint on record, or one notice with the initial framing
    followed by notices with the update framing only, each for a round of the
    run: the initial notice is never posted a second time, whatever the
    number of restarts. *)
Theorem run_posts_one_initial_notice_at_most
        (webhook : pystr) (ss : list session) :
  let out := run ss (__init__ webhook) in
  (sent_of out = [] /\ last_hash (bot_of out) = None)
  \/ exists first updated,
      In first (rounds_of ss) /\ incl updated (rounds_of ss)
      /\ sent_of out
         = announcement initial_framing first
           ++ flat_map (announcement update_framing) updated
      /\ last_hash (bot_of out) <> None.
Proof. cbv zeta. apply run_first_notice. reflexivity. Qed.

(** X13: once a fingerprint is on record it stays on record through every
    round, session and restart, and from then on a run posts notices with the
    update framing only. *)
Theorem run_never_forgets_the_fingerprint (ss : list session) (self : Bot) :
  last_hash self <> None ->
  last_hash (bot_of (run ss self)) <> None
  /\ exists updated,
      incl updated (rounds_of ss)
      /\ sent_of (run ss self)
         = flat_map (announcement update_framing) updated.
Proof.
  intros Hset.
  destruct (run_updates ss self Hset) as [updated [Hincl [Hsent Hlast]]].
  split; [exact Hlast|]. exists updated. split; [exact Hincl|exact Hsent].
Qed.

Lemma run_never_forgets_the_fingerprint_witness :
  last_hash (bot_of (run [failing_session; failing_session]
                         after_failing_session)) <> None.
Proof.
  apply (run_never_forgets_the_fingerprint
           [failing_session; failing_session] after_failing_session).
  vm_compute. discriminate.
Defined.

(** A round whose fetch fails, is blank, or brings the fingerprint on record
    posts nothing and leaves the fingerprint as it is. *)
Lemma silent_round (w : cycle) (self : Bot) :
  quiet w = true \/ last_hash self = Some (fingerprint w) ->
  sent_of (run_inner_body w self) = []
  /\ last_hash (bot_of (run_inner_body w self)) = last_hash self.
Proof.
  unfold quiet, fingerprint. intros Hsilent. rewrite run_inner_body_eq.
  destruct (fetch_failed (fetch_reply w)); [split; reflexivity|].
  cbv zeta.
  destruct (strip (region_text (fetch_reply w))) as [|c text];
    [split; reflexivity|].
  destruct Hsilent as [Hquiet | Hsame]; [discriminate|].
  rewrite Hsame, pystr_eqb_refl. split; [reflexivity|exact Hsame].
Qed.

Lemma sent_of_outcome {A} (r : result A) (b : Bot) (l : list Message) :
  sent_of (r, b, l) = l.
Proof. reflexivity. Qed.

Lemma bot_of_outcome {A} (r : result A) (b : Bot) (l : list Message) :
  bot_of (r, b, l) = b.
Proof. reflexivity. Qed.

(** X14: a loop over rounds whose fetches fail, are blank, or bring the text
    whose fingerprint is on record posts nothing and leaves [last_hash] as it
    is, however many rounds there are. *)
Theorem unchanged_text_is_never_posted (ws : list cycle) (self : Bot) :
  Forall (fun w => quiet w = true \/ last_hash self = Some (fingerprint w))
         ws ->
  sent_of (run_inner ws self) = []
  /\ last_hash (bot_of (run_inner ws self)) = last_hash self.
Proof.
  revert self. induction ws as [|w ws IH]; intros self Hall.
  - split; reflexivity.
  - inversion Hall as [|w' ws' Hw Hws]; subst.
    rewrite run_inner_step.
    destruct ((5 <=? error_count self) || stale (check_clock w) self);
      [split; reflexivity|].
    cbv zeta. rewrite sent_of_outcome, bot_of_outcome.
    destruct (silent_round w self Hw) as [-> Hlast].
    destruct (IH (bot_of (run_inner_body w self))) as [Hsent Hlast'].
    { rewrite Hlast. exact Hws. }
    split; [exact Hsent|]. rewrite Hlast'. exact Hlast.
Qed.

Lemma unchanged_text_is_never_posted_witness :
  sent_of (run_inner [round 300 (ok_page T1); round 600 unavailable;
                      round 900 (ok_page blank); round 1200 (ok_page T1)]
                     (set_last_hash (Some (calculate_hash T1))
                                    (fetched_at 0 (__init__ hook)))) = [].
Proof.
  apply (unchanged_text_is_never_posted
           [round 300 (ok_page T1); round 600 unavailable;
            round 900 (ok_page blank); round 1200 (ok_page T1)]
           (set_last_hash (Some (calculate_hash T1))
                          (fetched_at 0 (__init__ hook)))).
  apply Forall_cons; [right; vm_compute; reflexivity|].
  apply Forall_cons; [left; reflexivity|].
  apply Forall_cons; [left; reflexivity|].
  apply Forall_cons; [right; vm_compute; reflexivity|].
  apply Forall_nil.
Defined.

(** ** Reading a notification back *)

Lemma unwrap_wrap (piece : pystr) : unwrap (wrap piece) = piece.
Proof.
  unfold unwrap. rewrite wrap_length. unfold wrap. cbn [content].
  change backticks with ([ascii_of_nat 96; ascii_of_nat 96; ascii_of_nat 96]).
  cbn [app skipn]. rewrite Nat.add_sub.
  rewrite firstn_app, Nat.sub_diag, firstn_all. cbn [firstn].
  apply app_nil_r.
Qed.

(** X15: the messages of one call of [send_discord_message], each taken out
    of its backticks and put end to end in the order posted, give the text
    back, whichever deliveries failed. *)
Theorem posted_messages_give_the_text_back
        (text : pystr) (net : nat -> reply unit) (self : Bot) :
  List.concat (map unwrap (sent_of (send_discord_message text net self)))
  = text.
Proof.
  rewrite send_discord_message_eq, sent_of_outcome, map_map.
  rewrite (map_ext _ (fun piece => piece) unwrap_wrap), map_id.
  apply chunks_concat.
Qed.
